(** * Law_agent.py: a shallow embedding of the Streamlit script

    The script [Law_agent.py] is re-executed from top to bottom on every
    interaction.  Its only state that outlives a run is [st.session_state];
    everything else it does is an effect on the outside world: a temporary
    file, the phi knowledge base and vector store, four language-model
    agents, and the widgets it renders.

    The embedding keeps that shape.  A run is a computation in a small
    state-and-exception monad over [World] (the session state plus the log
    of effects of the run).  The services the script calls but does not
    implement are fields of an environment [Env]; each of them sees the log
    so far, so that a service may answer differently from call to call. *)

From Stdlib Require Import String Ascii List ZArith Lia Bool.
From stdpp Require Import base gmap strings.
Import ListNotations.
Local Open Scope Z_scope.

(** ** Python values *)

(** [Exception as e]: the script only ever formats an exception with
    [str(e)], so an exception is its message. *)
Inductive Exn : Type := Exception (msg : string).

Definition str_of_exn (e : Exn) : string :=
  match e with Exception m => m end.

(** Texts are byte strings: a character outside ASCII is its UTF-8 bytes. *)
Definition nl : string := String (ascii_of_nat 10) EmptyString.

(** [response.content] is [Optional]: [None] or a text.  Inside an f-string
    [None] is printed as the four letters [None]. *)
Definition format (content : option string) : string :=
  match content with
  | Some s => s
  | None => "None"
  end.

(** Truth value of [x] in [x if x else y] and in [if not x], for an optional
    text: [None] and the empty text are false. *)
Definition truthy (content : option string) : bool :=
  match content with
  | Some (String _ _) => true
  | _ => false
  end.

Record RunResponse : Type := { content : option string }.

(** ** The knowledge base *)

Record DocumentChunking : Type := { chunk_size : Z; overlap : Z }.

(** [PDFKnowledgeBase(path, vector_db, reader, chunking_strategy)].  The
    reader is the constant [PDFReader()].  The [vector_db] argument is the
    one object held in [st.session_state.vector_db]: the knowledge base
    shares it, it has no store of its own, so the record carries no copy. *)
Record PDFKnowledgeBase : Type :=
  { path : string; chunking_strategy : DocumentChunking }.

(** A stored chunk and the Chroma collection that holds them. *)
Record Document : Type := { doc_name : string; doc_content : string }.

Record ChromaDb : Type :=
  { collection : string; db_path : string; documents : list Document }.

Record UploadedFile : Type := { name : string; getvalue : list Byte.byte }.

(** [st.session_state] once lines 24-32 have run: the three keys exist. *)
Record session_state : Type :=
  { vector_db : ChromaDb;
    knowledge_base : option PDFKnowledgeBase;
    processed_files : gset string }.

(** Lines 24-32 on the first run of a session.  The Chroma client is
    persistent, so the collection starts with whatever is on disk. *)
Definition new_session (on_disk : list Document) : session_state :=
  {| vector_db := {| collection := "law"; db_path := "tmp/chromadb";
                     documents := on_disk |};
     knowledge_base := None;
     processed_files := ∅ |}.

(** [if st.session_state.knowledge_base:] a knowledge-base object is true,
    [None] is false. *)
Definition kb_truthy (kb : option PDFKnowledgeBase) : bool :=
  match kb with Some _ => true | None => false end.

(** ** Widgets and their values *)

Inductive AnalysisType : Type :=
  ContractReview | LegalResearch | RiskAssessment | ComplianceCheck | CustomQuery.

Inductive Tab : Type := Analysis | KeyPoints | Recommendations.

(** What the widgets return in one run.  [viewed_tab] is the tab the user
    has open in the browser: [st.tabs] keeps the selection on the client and
    hands the script three containers, never the selection, so no line of
    the script reads it. *)
Record Inputs : Type :=
  { chunk_size_in : Z;
    overlap_in : Z;
    uploaded_file : option UploadedFile;
    analysis_type : AnalysisType;
    text_area : string;
    button_Analyze : bool;
    viewed_tab : Tab }.

(** [number_input(min_value=1, max_value=5000)] and
    [number_input(min_value=1, max_value=1000)]: the ranges the two widgets
    can return. *)
Definition widget_ranges (i : Inputs) : Prop :=
  1 <= chunk_size_in i <= 5000 /\ 1 <= overlap_in i <= 1000.

Inductive Widget : Type :=
| title (s : string)
| number_input (label : string)
| header (s : string)
| file_uploader (label : string)
| spinner (s : string)
| success (s : string)
| error (s : string)
| selectbox (label : string)
| text_area_widget (label : string)
| button (label : string)
| warning (s : string)
| tabs (labels : list string)
| subheader (t : Tab) (s : string)
| markdown (t : option Tab) (s : string).

(** ** Effects *)

Inductive Agent : Type :=
  legal_researcher | contract_analyst | strategy_agent | team_lead.

Inductive Event : Type :=
| EvTempWrite (data : list Byte.byte) (r : Exn + string)
| EvLoad (kb : PDFKnowledgeBase) (recreate upsert : bool) (r : option Exn)
| EvAgent (a : Agent)
| EvRun (a : Agent) (prompt : string) (r : Exn + RunResponse)
| EvSt (w : Widget).

(** The collaborators.  [pdf_load] is [knowledge_base.load]: it reads the
    file, chunks, embeds and writes to the shared collection, and may raise
    after it has already changed the collection. *)
Record Env : Type :=
  { tempfile_write : list Event -> list Byte.byte -> Exn + string;
    pdf_load : list Event -> PDFKnowledgeBase -> ChromaDb -> ChromaDb * option Exn;
    agent_run : list Event -> Agent -> string -> Exn + RunResponse }.

Record World : Type := { session : session_state; log : list Event }.

Definition M (A : Type) : Type := World -> (Exn + A) * World.

Definition ret {A} (a : A) : M A := fun w => (inr a, w).

Definition bind {A B} (m : M A) (k : A -> M B) : M B :=
  fun w =>
    match m w with
    | (inr a, w') => k a w'
    | (inl e, w') => (inl e, w')
    end.

Definition try_except {A} (body : M A) (handler : Exn -> M A) : M A :=
  fun w =>
    match body w with
    | (inr a, w') => (inr a, w')
    | (inl e, w') => handler e w'
    end.

Definition raise {A} (e : Exn) : M A := fun w => (inl e, w).

Declare Scope py_scope.
Delimit Scope py_scope with py.
Notation "x <- m ;; k" := (bind m (fun x => k))
  (at level 100, m at next level, right associativity) : py_scope.
Notation "m ;; k" := (bind m (fun _ => k))
  (at level 100, right associativity) : py_scope.
Local Open Scope py_scope.

Definition emit (e : Event) : M unit :=
  fun w => (inr tt, {| session := session w; log := log w ++ [e] |}).

Definition st (w : Widget) : M unit := emit (EvSt w).

Definition get_session : M session_state := fun w => (inr (session w), w).

Definition set_session (s : session_state) : M unit :=
  fun w => (inr tt, {| session := s; log := log w |}).

(** ** The script *)

Section Script.

Variable env : Env.

(** [with tempfile.NamedTemporaryFile(delete=False, suffix=".pdf")]: write
    the upload to a temporary file and keep its name. *)
Definition write_temp_file (data : list Byte.byte) : M string :=
  fun w =>
    let r := tempfile_write env (log w) data in
    (r, {| session := session w; log := log w ++ [EvTempWrite data r] |}).

(** [st.session_state.knowledge_base.load(recreate=True, upsert=True)], on
    the collection the session and the knowledge base share. *)
Definition load (kb : PDFKnowledgeBase) (recreate upsert : bool) : M unit :=
  fun w =>
    let s := session w in
    let '(db, r) := pdf_load env (log w) kb (vector_db s) in
    (match r with Some e => inl e | None => inr tt end,
     {| session := {| vector_db := db;
                      knowledge_base := knowledge_base s;
                      processed_files := processed_files s |};
        log := log w ++ [EvLoad kb recreate upsert r] |}).

(** [agent.run(prompt)] *)
Definition run (a : Agent) (prompt : string) : M RunResponse :=
  fun w =>
    let r := agent_run env (log w) a prompt in
    (r, {| session := session w; log := log w ++ [EvRun a prompt r] |}).

(** Lines 35-67. *)
Definition sidebar (i : Inputs) : M unit :=
  st (number_input "Chunk Size") ;;
  st (number_input "Overlap") ;;
  st (header "📄 Upload Document") ;;
  st (file_uploader "Upload legal document (PDF)") ;;
  match uploaded_file i with
  | None => ret tt
  | Some f =>
      s <- get_session ;;
      if decide (name f ∈ processed_files s) then ret tt
      else
        st (spinner "Processing document...") ;;
        try_except
          (temp_path <- write_temp_file (getvalue f) ;;
           let kb := {| path := temp_path;
                        chunking_strategy :=
                          {| chunk_size := chunk_size_in i;
                             overlap := overlap_in i |} |} in
           s <- get_session ;;
           set_session {| vector_db := vector_db s;
                          knowledge_base := Some kb;
                          processed_files := processed_files s |} ;;
           load kb true true ;;
           s <- get_session ;;
           set_session {| vector_db := vector_db s;
                          knowledge_base := knowledge_base s;
                          processed_files := processed_files s ∪ {[name f]} |} ;;
           st (success "✅Document parsed and added to the knowledge base."))
          (fun e => st (error ("❌ Error processing document: " +:+ str_of_exn e)))
  end.

(** Lines 70-125: the four agents are built only under the guard. *)
Definition agents : M unit :=
  s <- get_session ;;
  if kb_truthy (knowledge_base s) then
    emit (EvAgent legal_researcher) ;;
    emit (EvAgent contract_analyst) ;;
    emit (EvAgent strategy_agent) ;;
    emit (EvAgent team_lead)
  else ret tt.

(** The f-string of lines 132-136. *)
Definition integrate_prompt (research contract strategy : RunResponse) : string :=
  "Summarize and integrate the following insights gathered using the full contract data:"
    +:+ nl +:+ nl
  +:+ "Legal Researcher Response:" +:+ nl +:+ format (content research) +:+ nl
  +:+ "Contract Analyst Response:" +:+ nl +:+ format (content contract) +:+ nl
  +:+ "Legal Strategy Response:" +:+ nl +:+ format (content strategy) +:+ nl
  +:+ "Provide a structured legal analysis report that includes key terms, obligations, potential risks and recommendations with references to the document.".

(** Lines 127-138. *)
Definition get_response (query : string) : M RunResponse :=
  research_response <- run legal_researcher query ;;
  contract_response <- run contract_analyst query ;;
  strategy_response <- run strategy_agent query ;;
  final_response <-
    run team_lead
        (integrate_prompt research_response contract_response strategy_response) ;;
  ret final_response.

(** The dictionary of lines 152-169; [Custom Query] is not a key. *)
Definition predefined_queries (t : AnalysisType) : option string :=
  match t with
  | ContractReview =>
      Some ("Analyze this document, contract, or agreement using all available data from the knowledge base. "
            +:+ "Identify key terms, obligations, and risks in detail.")
  | LegalResearch =>
      Some ("Using all available data from the knowledge base, find relevant legal cases and precedents related to this document, contract, or agreement. "
            +:+ "Provide detailed references and sources.")
  | RiskAssessment =>
      Some ("Extract all data from the knowledge base and identify potential legal risks in this document, contract, or agreement. "
            +:+ "Detail specific risk areas and reference sections of the text.")
  | ComplianceCheck =>
      Some ("Evaluate this document, contract, or agreement for compliance with legal regulations using all available data from the knowledge base. "
            +:+ "Highlight any areas of concern and suggest corrective actions.")
  | CustomQuery => None
  end.

(** [if not query]: a text is false exactly when it is empty. *)
Definition not_ (query : string) : bool :=
  match query with EmptyString => true | String _ _ => false end.

Definition key_points_prompt (response : RunResponse) : string :=
  "Summarize the key legal points from this analysis:" +:+ nl
    +:+ format (content response).

Definition recommendations_prompt (response : RunResponse) : string :=
  "Provide specific legal recommendations based on this analysis:" +:+ nl
    +:+ format (content response).

(** The fallback text of each tab (lines 184, 191, 198). *)
Definition placeholder (t : Tab) : string :=
  match t with
  | Analysis => "No response generated."
  | KeyPoints => "No summary generated."
  | Recommendations => "No recommendations generated."
  end.

(** [r.content if r.content else placeholder] *)
Definition shown (t : Tab) (r : RunResponse) : string :=
  if truthy (content r) then format (content r) else placeholder t.

(** Lines 176-198: the body of the [else] branch under the button. *)
Definition analyze (query : string) : M unit :=
  st (spinner "Analyzing...") ;;
  response <- get_response query ;;
  st (tabs ["Analysis"; "Key Points"; "Recommendations"]%string) ;;
  st (subheader Analysis "📑 Detailed Analysis") ;;
  st (markdown (Some Analysis) (shown Analysis response)) ;;
  st (subheader KeyPoints "📌 Key Points Summary") ;;
  key_points_response <- run team_lead (key_points_prompt response) ;;
  st (markdown (Some KeyPoints) (shown KeyPoints key_points_response)) ;;
  st (subheader Recommendations "📋 Recommendations") ;;
  recommendations_response <- run team_lead (recommendations_prompt response) ;;
  st (markdown (Some Recommendations)
               (shown Recommendations recommendations_response)).

(** Lines 141-198. *)
Definition app (i : Inputs) : M unit :=
  s <- get_session ;;
  if kb_truthy (knowledge_base s) then
    st (header "🔍 Select Analysis Type") ;;
    st (selectbox "Choose Analysis Type:") ;;
    query <-
      match analysis_type i with
      | CustomQuery =>
          st (text_area_widget "Enter your custom legal question:") ;;
          ret (text_area i)
      | t =>
          match predefined_queries t with
          | Some q => ret q
          | None => raise (Exception "KeyError")
          end
      end ;;
    st (button "Analyze") ;;
    if button_Analyze i then
      if not_ query then st (warning "Please enter a query.")
      else analyze query
    else ret tt
  else ret tt.

(** One execution of the script. *)
Definition script (i : Inputs) : M unit :=
  st (title "AI Law Firm 🎓") ;;
  st (markdown None "This is a legal agent that can answer questions about law, legal documents, and provide legal advice. It analyzes your legal documents and provide you legal strategies and guidance along with risk analysis.") ;;
  sidebar i ;;
  agents ;;
  app i.

End Script.

(** A run starts with an empty log; the session state is what the previous
    run left.  An exception that escapes ends the run; the state written so
    far stays. *)
Definition rerun (env : Env) (i : Inputs) (s : session_state) : (Exn + unit) * World :=
  script env i {| session := s; log := [] |}.

Definition outcome (r : (Exn + unit) * World) : Exn + unit := fst r.
Definition trace (r : (Exn + unit) * World) : list Event := log (snd r).
Definition after (r : (Exn + unit) * World) : session_state := session (snd r).

(** A session: the script is run again at every interaction, each run on
    the session state the previous one left. *)
Fixpoint session_runs (steps : list (Env * Inputs)) (s : session_state) :
  list ((Exn + unit) * World) :=
  match steps with
  | [] => []
  | (env, i) :: steps' =>
      rerun env i s :: session_runs steps' (after (rerun env i s))
  end.

(** The session state such a sequence of runs leaves. *)
Fixpoint session_end (steps : list (Env * Inputs)) (s : session_state) :
  session_state :=
  match steps with
  | [] => s
  | (env, i) :: steps' => session_end steps' (after (rerun env i s))
  end.

(** ** Reading a trace *)

(** The agent calls of a trace, in order: agent, prompt, result. *)
Definition calls (l : list Event) : list (Agent * string * (Exn + RunResponse)) :=
  omap (fun e => match e with EvRun a p r => Some (a, p, r) | _ => None end) l.

(** What a computation adds to the log of the world it starts in. *)
Definition new_events {A} (m : M A) (w : World) : list Event :=
  drop (length (log w)) (log (snd (m w))).

(** The three labelled responses as lines 133-135 lay them out. *)
Definition labeled_responses (research contract strategy : RunResponse) : string :=
  "Legal Researcher Response:" +:+ nl +:+ format (content research) +:+ nl
  +:+ "Contract Analyst Response:" +:+ nl +:+ format (content contract) +:+ nl
  +:+ "Legal Strategy Response:" +:+ nl +:+ format (content strategy) +:+ nl.

Definition integrate_intro : string :=
  "Summarize and integrate the following insights gathered using the full contract data:"
    +:+ nl +:+ nl.

Definition integrate_closing : string :=
  "Provide a structured legal analysis report that includes key terms, obligations, potential risks and recommendations with references to the document.".

(** The labelled concatenation in the words of the specification:
    ["Legal Researcher Response: ...\nContract Analyst Response: ...\nLegal
    Strategy Response: ..."]. *)
Definition spec_labeled_concatenation (research contract strategy : string) : string :=
  "Legal Researcher Response: " +:+ research +:+ nl
  +:+ "Contract Analyst Response: " +:+ contract +:+ nl
  +:+ "Legal Strategy Response: " +:+ strategy.

(** ** Stub collaborators *)

Definition stub_text : string :=
  "This Agreement is made between the Supplier and the Customer.".

(** Agents that answer with a fixed text each, a temporary file that is
    always written, and a loader that replaces the collection by one chunk
    cut to the configured size. *)
Definition stub_answer (a : Agent) : string :=
  match a with
  | legal_researcher => "R"
  | contract_analyst => "C"
  | strategy_agent => "S"
  | team_lead => "T"
  end.

Definition stub_env : Env :=
  {| tempfile_write := fun _ _ => inr "/tmp/upload.pdf"%string;
     pdf_load := fun _ kb db =>
       ({| collection := collection db; db_path := db_path db;
           documents :=
             [ {| doc_name := path kb;
                  doc_content :=
                    String.substring
                      0 (Z.to_nat (chunk_size (chunking_strategy kb))) stub_text |} ] |},
        None);
     agent_run := fun _ a _ => inr {| content := Some (stub_answer a) |} |}.

(** The same, with a loader that drops the collection and then raises, as
    on an unreadable PDF. *)
Definition unreadable_env : Env :=
  {| tempfile_write := tempfile_write stub_env;
     pdf_load := fun _ _ db =>
       ({| collection := collection db; db_path := db_path db; documents := [] |},
        Some (Exception "EOF marker not found"));
     agent_run := agent_run stub_env |}.

Definition contract_pdf : UploadedFile :=
  {| name := "contract.pdf"; getvalue := [] |}.

Definition other_pdf : UploadedFile :=
  {| name := "other.pdf"; getvalue := [] |}.

Definition upload (f : UploadedFile) (cs ov : Z) : Inputs :=
  {| chunk_size_in := cs; overlap_in := ov; uploaded_file := Some f;
     analysis_type := ContractReview; text_area := EmptyString;
     button_Analyze := false; viewed_tab := Analysis |}.

Definition press_analyze (i : Inputs) : Inputs :=
  {| chunk_size_in := chunk_size_in i; overlap_in := overlap_in i;
     uploaded_file := uploaded_file i; analysis_type := analysis_type i;
     text_area := text_area i; button_Analyze := true;
     viewed_tab := viewed_tab i |}.

Definition custom_query (q : string) (i : Inputs) : Inputs :=
  {| chunk_size_in := chunk_size_in i; overlap_in := overlap_in i;
     uploaded_file := uploaded_file i; analysis_type := CustomQuery;
     text_area := q; button_Analyze := button_Analyze i;
     viewed_tab := viewed_tab i |}.

(** A session in which [contract.pdf] has been indexed with the default
    parameters. *)
Definition indexed_session : session_state :=
  after (rerun stub_env (upload contract_pdf 1000 200) (new_session [])).

(** ** Outcomes of the parts of the script *)

(** A computation [m] started in [w] leaves the session untouched and adds
    the events [l] to the log. *)
Definition adds {A} (m : M A) (w : World) (l : list Event) : Prop :=
  snd (m w) = {| session := session w; log := log w ++ l |}.

(** The four outcomes of [get_response]: one of the three analysis calls
    raises and nothing follows it, or all three return and the team lead is
    called once on the prompt built from their responses. *)
Inductive get_response_run (q : string) : list Event -> Exn + RunResponse -> Prop :=
| research_raises e :
    get_response_run q [EvRun legal_researcher q (inl e)] (inl e)
| contract_raises r1 e :
    get_response_run q
      [EvRun legal_researcher q (inr r1); EvRun contract_analyst q (inl e)] (inl e)
| strategy_raises r1 r2 e :
    get_response_run q
      [EvRun legal_researcher q (inr r1); EvRun contract_analyst q (inr r2);
       EvRun strategy_agent q (inl e)] (inl e)
| team_lead_called r1 r2 r3 res :
    get_response_run q
      [EvRun legal_researcher q (inr r1); EvRun contract_analyst q (inr r2);
       EvRun strategy_agent q (inr r3);
       EvRun team_lead (integrate_prompt r1 r2 r3) res] res.

(** The events of the first tab, shown as soon as the report is there. *)
Definition analysis_view (response : RunResponse) : list Event :=
  [EvSt (tabs ["Analysis"; "Key Points"; "Recommendations"]%string);
   EvSt (subheader Analysis "📑 Detailed Analysis");
   EvSt (markdown (Some Analysis) (shown Analysis response))].

Definition key_points_call (response : RunResponse) (r : Exn + RunResponse) : list Event :=
  [EvSt (subheader KeyPoints "📌 Key Points Summary");
   EvRun team_lead (key_points_prompt response) r].

Definition recommendations_call (response : RunResponse) (r : Exn + RunResponse) : list Event :=
  [EvSt (subheader Recommendations "📋 Recommendations");
   EvRun team_lead (recommendations_prompt response) r].

(** The outcomes of [analyze]: the first call that raises ends the run. *)
Inductive analyze_run (q : string) : list Event -> Exn + unit -> Prop :=
| report_raises lg e :
    get_response_run q lg (inl e) ->
    analyze_run q (EvSt (spinner "Analyzing...") :: lg) (inl e)
| key_points_raises lg response e :
    get_response_run q lg (inr response) ->
    analyze_run q
      (EvSt (spinner "Analyzing...") :: lg ++ analysis_view response
         ++ key_points_call response (inl e))
      (inl e)
| recommendations_raises lg response kp e :
    get_response_run q lg (inr response) ->
    analyze_run q
      (EvSt (spinner "Analyzing...") :: lg ++ analysis_view response
         ++ key_points_call response (inr kp)
         ++ [EvSt (markdown (Some KeyPoints) (shown KeyPoints kp))]
         ++ recommendations_call response (inl e))
      (inl e)
| all_views_shown lg response kp rc :
    get_response_run q lg (inr response) ->
    analyze_run q
      (EvSt (spinner "Analyzing...") :: lg ++ analysis_view response
         ++ key_points_call response (inr kp)
         ++ [EvSt (markdown (Some KeyPoints) (shown KeyPoints kp))]
         ++ recommendations_call response (inr rc)
         ++ [EvSt (markdown (Some Recommendations) (shown Recommendations rc))])
      (inr tt).

(** The sidebar: what it adds after its four widgets, and the session state
    it leaves. *)
Definition sidebar_widgets : list Event :=
  [EvSt (number_input "Chunk Size"); EvSt (number_input "Overlap");
   EvSt (header "📄 Upload Document");
   EvSt (file_uploader "Upload legal document (PDF)")].

Definition new_kb (i : Inputs) (temp_path : string) : PDFKnowledgeBase :=
  {| path := temp_path;
     chunking_strategy :=
       {| chunk_size := chunk_size_in i; overlap := overlap_in i |} |}.

Definition processing_error (e : Exn) : Event :=
  EvSt (error ("❌ Error processing document: " +:+ str_of_exn e)).

Inductive sidebar_run (i : Inputs) (s : session_state) :
  list Event -> session_state -> Prop :=
| nothing_uploaded :
    uploaded_file i = None -> sidebar_run i s [] s
| already_processed f :
    uploaded_file i = Some f -> name f ∈ processed_files s ->
    sidebar_run i s [] s
| temp_file_raises f e :
    uploaded_file i = Some f -> name f ∉ processed_files s ->
    sidebar_run i s
      [EvSt (spinner "Processing document...");
       EvTempWrite (getvalue f) (inl e); processing_error e]
      s
| load_raises f temp_path db e :
    uploaded_file i = Some f -> name f ∉ processed_files s ->
    sidebar_run i s
      [EvSt (spinner "Processing document...");
       EvTempWrite (getvalue f) (inr temp_path);
       EvLoad (new_kb i temp_path) true true (Some e); processing_error e]
      {| vector_db := db; knowledge_base := Some (new_kb i temp_path);
         processed_files := processed_files s |}
| document_indexed f temp_path db :
    uploaded_file i = Some f -> name f ∉ processed_files s ->
    sidebar_run i s
      [EvSt (spinner "Processing document...");
       EvTempWrite (getvalue f) (inr temp_path);
       EvLoad (new_kb i temp_path) true true None;
       EvSt (success "✅Document parsed and added to the knowledge base.")]
      {| vector_db := db; knowledge_base := Some (new_kb i temp_path);
         processed_files := processed_files s ∪ {[name f]} |}.

Definition agent_events : list Event :=
  [EvAgent legal_researcher; EvAgent contract_analyst;
   EvAgent strategy_agent; EvAgent team_lead].

(** The query the [Analyze] button submits: the text area for a custom
    query, the dictionary entry otherwise. *)
Definition query_of (i : Inputs) : string :=
  match analysis_type i with
  | CustomQuery => text_area i
  | t => default EmptyString (predefined_queries t)
  end.

Definition app_widgets (i : Inputs) : list Event :=
  [EvSt (header "🔍 Select Analysis Type");
   EvSt (selectbox "Choose Analysis Type:")]
  ++ match analysis_type i with
     | CustomQuery => [EvSt (text_area_widget "Enter your custom legal question:")]
     | _ => []
     end
  ++ [EvSt (button "Analyze")].

Inductive app_run (i : Inputs) : list Event -> Exn + unit -> Prop :=
| button_not_pressed :
    button_Analyze i = false -> app_run i (app_widgets i) (inr tt)
| empty_query :
    button_Analyze i = true -> query_of i = EmptyString ->
    app_run i (app_widgets i ++ [EvSt (warning "Please enter a query.")]) (inr tt)
| query_analyzed la res :
    button_Analyze i = true -> query_of i <> EmptyString ->
    analyze_run (query_of i) la res ->
    app_run i (app_widgets i ++ la) res.

(** A whole run. *)
Definition page_head : list Event :=
  [EvSt (title "AI Law Firm 🎓");
   EvSt (markdown None "This is a legal agent that can answer questions about law, legal documents, and provide legal advice. It analyzes your legal documents and provide you legal strategies and guidance along with risk analysis.")].

Inductive script_run (i : Inputs) (s : session_state) :
  list Event -> session_state -> Exn + unit -> Prop :=
| without_knowledge_base ls s' :
    sidebar_run i s ls s' -> knowledge_base s' = None ->
    script_run i s (page_head ++ sidebar_widgets ++ ls) s' (inr tt)
| with_knowledge_base ls s' kb la res :
    sidebar_run i s ls s' -> knowledge_base s' = Some kb ->
    app_run i la res ->
    script_run i s (page_head ++ sidebar_widgets ++ ls ++ agent_events ++ la) s' res.

(** ** The query part and the indexing part of a trace *)

(** The events of a query: the agent calls and the texts shown in the three
    tabs. *)
Definition is_query_event (e : Event) : bool :=
  match e with
  | EvRun _ _ _ => true
  | EvSt (markdown (Some _) _) => true
  | _ => false
  end.

Definition query_events (l : list Event) : list Event :=
  List.filter is_query_event l.

(** The events of indexing: the temporary file, the load, and the two
    messages that end it. *)
Definition is_indexing_event (e : Event) : bool :=
  match e with
  | EvTempWrite _ _ | EvLoad _ _ _ _ => true
  | EvSt (success _) | EvSt (error _) => true
  | _ => false
  end.

Definition indexing_events (l : list Event) : list Event :=
  List.filter is_indexing_event l.

(** The query events of [analyze], outcome by outcome. *)
Inductive query_log (q : string) : list Event -> Exn + unit -> Prop :=
| log_report_raises lg e :
    get_response_run q lg (inl e) -> query_log q lg (inl e)
| log_key_points_raises lg response e :
    get_response_run q lg (inr response) ->
    query_log q
      (lg ++ [EvSt (markdown (Some Analysis) (shown Analysis response));
              EvRun team_lead (key_points_prompt response) (inl e)])
      (inl e)
| log_recommendations_raises lg response kp e :
    get_response_run q lg (inr response) ->
    query_log q
      (lg ++ [EvSt (markdown (Some Analysis) (shown Analysis response));
              EvRun team_lead (key_points_prompt response) (inr kp);
              EvSt (markdown (Some KeyPoints) (shown KeyPoints kp));
              EvRun team_lead (recommendations_prompt response) (inl e)])
      (inl e)
| log_all_views lg response kp rc :
    get_response_run q lg (inr response) ->
    query_log q
      (lg ++ [EvSt (markdown (Some Analysis) (shown Analysis response));
              EvRun team_lead (key_points_prompt response) (inr kp);
              EvSt (markdown (Some KeyPoints) (shown KeyPoints kp));
              EvRun team_lead (recommendations_prompt response) (inr rc);
              EvSt (markdown (Some Recommendations) (shown Recommendations rc))])
      (inr tt).

(** ** More stubs *)

#[global] Instance Agent_eq_dec : EqDecision Agent.
Proof. solve_decision. Defined.

(** The stub environment with one agent out of service. *)
Definition agent_down (a : Agent) : Env :=
  {| tempfile_write := tempfile_write stub_env;
     pdf_load := pdf_load stub_env;
     agent_run := fun h b p =>
       if decide (b = a) then inl (Exception "InferenceError")
       else agent_run stub_env h b p |}.

Definition review : string := default EmptyString (predefined_queries ContractReview).

Definition idle_world (s : session_state) : World := {| session := s; log := [] |}.

(** The call behind each view, by its position among the calls of a run. *)
Definition view_call (t : Tab) : nat :=
  match t with Analysis => 3 | KeyPoints => 4 | Recommendations => 5 end.

(** Nothing of what the two guards protect is in the trace. *)
Definition nothing_behind_guard (tr : list Event) : Prop :=
  (forall a, ~ In (EvAgent a) tr) /\
  (forall a p r, ~ In (EvRun a p r) tr) /\
  (forall l, ~ In (EvSt (selectbox l)) tr) /\
  (forall l, ~ In (EvSt (button l)) tr).

Definition no_upload : Inputs :=
  {| chunk_size_in := 1000; overlap_in := 200; uploaded_file := None;
     analysis_type := ContractReview; text_area := EmptyString;
     button_Analyze := true; viewed_tab := Analysis |}.

Definition indexed_message : Event :=
  EvSt (success "✅Document parsed and added to the knowledge base.").

(** ** More readers of a trace *)

(** The agents constructed in a run, in order. *)
Definition is_construction (e : Event) : bool :=
  match e with EvAgent _ => true | _ => false end.

Definition constructed (l : list Event) : list Event :=
  List.filter is_construction l.

(** The kinds of events the body under the [Analyze] button produces. *)
Definition is_analyze_event (e : Event) : bool :=
  match e with
  | EvRun _ _ _ => true
  | EvSt (spinner _) | EvSt (tabs _) | EvSt (subheader _ _) => true
  | EvSt (markdown (Some _) _) => true
  | _ => false
  end.

(** The session states in which a processed name comes with a knowledge
    base. *)
Definition processed_has_knowledge_base (s : session_state) : Prop :=
  forall x, x ∈ processed_files s -> knowledge_base s <> None.

(** The stub environment in which the fifth agent call of a run, the one
    for the key points, raises. *)
Definition fifth_call_down : Env :=
  {| tempfile_write := tempfile_write stub_env;
     pdf_load := pdf_load stub_env;
     agent_run := fun h a p =>
       if Nat.eqb (length (calls h)) 4 then inl (Exception "InferenceError")
       else agent_run stub_env h a p |}.

(** The stub environment in which every agent returns a response without
    content. *)
Definition silent_env : Env :=
  {| tempfile_write := tempfile_write stub_env;
     pdf_load := pdf_load stub_env;
     agent_run := fun _ _ _ => inr {| content := None |} |}.

(** ** The chunk indexer of the specification *)

Module ChunkIndexer.

Local Open Scope nat_scope.

Section Chunking.

(** The unit of text: characters or tokens. *)
Context {A : Type}.

Variables chunk_size overlap : nat.

(** Modelled from the spec: the splitting step of [index], which the
    script leaves to [DocumentChunking] of the phi library; that class is
    not among the sources.  Section 4.1 of the specification: the text is
    split into a sequence of chunks of length [chunk_size], consecutive
    chunks share [overlap] units, and the last chunk may be shorter.  A
    window of [chunk_size] units therefore advances by
    [chunk_size - overlap] until it reaches the end of the text. *)
Fixpoint split_from (fuel : nat) (text : list A) : list (list A) :=
  match fuel with
  | O => []
  | S fuel' =>
      match text with
      | [] => []
      | _ :: _ =>
          if length text <=? chunk_size then [text]
          else take chunk_size text
                 :: split_from fuel' (drop (chunk_size - overlap) text)
      end
  end.

(** Every step consumes at least one unit, so the length of the text is
    fuel enough. *)
Definition split (text : list A) : list (list A) :=
  split_from (length text) text.

(** Modelled from the spec: the precondition of [index] in section 4.1. *)
Definition valid_chunking : Prop := 1 <= overlap < chunk_size.

End Chunking.

End ChunkIndexer.

(** * Properties *)

(** ** Texts *)

Lemma append_cons (a : ascii) (s t : string) :
  String a s +:+ t = String a (s +:+ t).
Proof. reflexivity. Qed.

Lemma append_assoc (s t u : string) : (s +:+ t) +:+ u = s +:+ (t +:+ u).
Proof.
  induction s as [|a s IH]; [reflexivity|].
  rewrite !append_cons. now rewrite IH.
Qed.

Lemma integrate_prompt_parts (r1 r2 r3 : RunResponse) :
  integrate_prompt r1 r2 r3 =
  integrate_intro +:+ labeled_responses r1 r2 r3 +:+ integrate_closing.
Proof.
  unfold integrate_prompt, integrate_intro, labeled_responses, integrate_closing.
  now rewrite !append_assoc.
Qed.

(** ** How each part of the script extends the world *)

Section Steps.

Variable env : Env.

Lemma adds_new_events {A} (m : M A) (w : World) (l : list Event) :
  adds m w l -> new_events m w = l.
Proof.
  unfold adds, new_events. intros ->. cbn. apply drop_app_length.
Qed.

Lemma app_cons_assoc {A} (l : list A) (x : A) (k : list A) :
  (l ++ [x]) ++ k = l ++ x :: k.
Proof. now rewrite <- app_assoc. Qed.

Lemma get_response_spec (q : string) (w : World) :
  exists l, adds (get_response env q) w l /\
            get_response_run q l (fst (get_response env q w)).
Proof.
  unfold adds, get_response, bind, run, ret. cbn.
  destruct (agent_run env (log w) legal_researcher q) as [e|r1] eqn:E1; cbn.
  { eexists. split; [reflexivity|]. constructor. }
  destruct (agent_run env _ contract_analyst q) as [e|r2] eqn:E2; cbn.
  { eexists. split; [now rewrite app_cons_assoc|]. constructor. }
  destruct (agent_run env _ strategy_agent q) as [e|r3] eqn:E3; cbn.
  { eexists. split; [now rewrite !app_cons_assoc|]. constructor. }
  destruct (agent_run env _ team_lead _) as [e|r4] eqn:E4; cbn.
  all: eexists; (split; [now rewrite !app_cons_assoc|]); constructor.
Qed.

Lemma bind_st {B} (x : Widget) (k : unit -> M B) (w : World) :
  bind (st x) k w = k tt {| session := session w; log := log w ++ [EvSt x] |}.
Proof. reflexivity. Qed.

Lemma bind_emit {B} (x : Event) (k : unit -> M B) (w : World) :
  bind (emit x) k w = k tt {| session := session w; log := log w ++ [x] |}.
Proof. reflexivity. Qed.

Lemma bind_ret {A B} (a : A) (k : A -> M B) (w : World) :
  bind (ret a) k w = k a w.
Proof. reflexivity. Qed.

Lemma bind_bind {A B C} (m : M A) (k : A -> M B) (h : B -> M C) (w : World) :
  bind (bind m k) h w = bind m (fun a => bind (k a) h) w.
Proof. unfold bind. now destruct (m w) as [[e|a] w']. Qed.

Lemma bind_inr {A B} (m : M A) (k : A -> M B) (w : World) (a : A) (w' : World) :
  m w = (inr a, w') -> bind m k w = k a w'.
Proof. unfold bind. now intros ->. Qed.

Lemma bind_inl {A B} (m : M A) (k : A -> M B) (w : World) (e : Exn) (w' : World) :
  m w = (inl e, w') -> bind m k w = (inl e, w').
Proof. unfold bind. now intros ->. Qed.

Lemma bind_get_session {B} (k : session_state -> M B) (w : World) :
  bind get_session k w = k (session w) w.
Proof. reflexivity. Qed.

Lemma bind_set_session {B} (s : session_state) (k : unit -> M B) (w : World) :
  bind (set_session s) k w = k tt {| session := s; log := log w |}.
Proof. reflexivity. Qed.

Lemma bind_run {B} (a : Agent) (p : string) (k : RunResponse -> M B) (w : World) :
  bind (run env a p) k w =
  match agent_run env (log w) a p with
  | inr r => k r {| session := session w;
                    log := log w ++ [EvRun a p (inr r)] |}
  | inl e => (inl e, {| session := session w;
                        log := log w ++ [EvRun a p (inl e)] |})
  end.
Proof.
  unfold bind, run. cbn. now destruct (agent_run env (log w) a p).
Qed.

Lemma analyze_spec (q : string) (w : World) :
  exists l, adds (analyze env q) w l /\ analyze_run q l (fst (analyze env q w)).
Proof.
  unfold analyze, adds. rewrite bind_st.
  set (w1 := {| session := session w;
                log := log w ++ [EvSt (spinner "Analyzing...")] |}).
  destruct (get_response_spec q w1) as (lg & Hlg & Hrun).
  unfold adds in *.
  destruct (get_response env q w1) as [[e|response] w2] eqn:E;
    [rewrite (bind_inl _ _ _ _ _ E) | rewrite (bind_inr _ _ _ _ _ E)];
    cbn [fst snd] in *; subst w2; subst w1; cbn [session log] in *.
  { exists (EvSt (spinner "Analyzing...") :: lg).
    split; [now rewrite app_cons_assoc | now constructor]. }
  rewrite !bind_st. cbn [session log]. rewrite bind_run. cbn [session log].
  destruct (agent_run env _ team_lead (key_points_prompt response)) as [e|kp].
  { eexists. split; [|now apply key_points_raises; eassumption].
    cbn [snd]. f_equal. unfold analysis_view, key_points_call.
    rewrite <- !app_assoc. reflexivity. }
  rewrite !bind_st. cbn [session log]. rewrite bind_run. cbn [session log].
  destruct (agent_run env _ team_lead (recommendations_prompt response)) as [e|rc].
  { eexists.
    split; [|now apply recommendations_raises with (kp := kp); eassumption].
    cbn [snd]. f_equal.
    unfold analysis_view, key_points_call, recommendations_call.
    rewrite <- !app_assoc. reflexivity. }
  eexists.
  split; [|now apply all_views_shown with (kp := kp) (rc := rc); eassumption].
  unfold st, emit. cbn [snd session log]. f_equal.
  unfold analysis_view, key_points_call, recommendations_call.
  rewrite <- !app_assoc. reflexivity.
Qed.

Lemma world_eta (w : World) : w = {| session := session w; log := log w |}.
Proof. now destruct w. Qed.

Lemma bind_write_temp_file {B} (data : list Byte.byte) (k : string -> M B) (w : World) :
  bind (write_temp_file env data) k w =
  match tempfile_write env (log w) data with
  | inr p => k p {| session := session w;
                    log := log w ++ [EvTempWrite data (inr p)] |}
  | inl e => (inl e, {| session := session w;
                        log := log w ++ [EvTempWrite data (inl e)] |})
  end.
Proof.
  unfold bind, write_temp_file. cbn. now destruct (tempfile_write env (log w) data).
Qed.

Lemma bind_load {B} (kb : PDFKnowledgeBase) (b1 b2 : bool) (k : unit -> M B) (w : World) :
  bind (load env kb b1 b2) k w =
  let s := session w in
  let db := fst (pdf_load env (log w) kb (vector_db s)) in
  let s' := {| vector_db := db; knowledge_base := knowledge_base s;
               processed_files := processed_files s |} in
  match snd (pdf_load env (log w) kb (vector_db s)) with
  | None => k tt {| session := s'; log := log w ++ [EvLoad kb b1 b2 None] |}
  | Some e => (inl e, {| session := s';
                         log := log w ++ [EvLoad kb b1 b2 (Some e)] |})
  end.
Proof.
  unfold bind, load. cbn.
  now destruct (pdf_load env (log w) kb (vector_db (session w))) as [db [e|]].
Qed.

Lemma sidebar_spec (i : Inputs) (w : World) :
  exists l s',
    sidebar env i w =
      (inr tt, {| session := s'; log := log w ++ sidebar_widgets ++ l |}) /\
    sidebar_run i (session w) l s'.
Proof.
  unfold sidebar, sidebar_widgets. rewrite !bind_st. cbn [session log].
  destruct (uploaded_file i) as [f|] eqn:Hf.
  2:{ exists [], (session w). split; [|now constructor].
      unfold ret. rewrite <- !app_assoc. reflexivity. }
  rewrite bind_get_session. cbn [session log].
  destruct (decide (name f ∈ processed_files (session w))) as [Hin|Hin].
  { exists [], (session w). split; [|now apply already_processed with f].
    unfold ret. rewrite <- !app_assoc. reflexivity. }
  rewrite bind_st. cbn [session log]. unfold try_except.
  rewrite bind_write_temp_file. cbn [session log].
  destruct (tempfile_write env _ (getvalue f)) as [e|temp_path].
  { eexists _, (session w). split; [|apply temp_file_raises; eassumption].
    unfold st, emit. cbn [session log]. rewrite <- !app_assoc. reflexivity. }
  rewrite bind_get_session, bind_set_session. cbn [session log vector_db
    knowledge_base processed_files].
  rewrite bind_load. cbn [session log vector_db knowledge_base processed_files].
  fold (new_kb i temp_path).
  destruct (pdf_load env _ (new_kb i temp_path) (vector_db (session w)))
    as [db [e|]]; cbn [fst snd].
  { eexists _, _. split; [|apply load_raises with (db := db); eassumption].
    unfold st, emit. cbn [session log]. rewrite <- !app_assoc. reflexivity. }
  rewrite bind_get_session, bind_set_session. cbn [session log vector_db
    knowledge_base processed_files].
  eexists _, _. split; [|apply document_indexed with (db := db); eassumption].
  unfold st, emit. cbn [session log]. rewrite <- !app_assoc. reflexivity.
Qed.

Lemma agents_spec (w : World) :
  agents w =
    (inr tt,
     {| session := session w;
        log := log w ++ if kb_truthy (knowledge_base (session w))
                        then agent_events else [] |}).
Proof.
  unfold agents. rewrite bind_get_session.
  destruct (kb_truthy (knowledge_base (session w))).
  - rewrite !bind_emit. unfold emit. cbn [session log].
    now rewrite <- !app_assoc.
  - unfold ret. rewrite app_nil_r. now rewrite <- world_eta.
Qed.

Lemma not_empty (q : string) : not_ q = true <-> q = EmptyString.
Proof. destruct q; cbn; split; congruence. Qed.

Lemma app_press (q : string) (i : Inputs) (w : World) (l0 : list Event) :
  q = query_of i ->
  exists l,
    snd ((if button_Analyze i
          then if not_ q then st (warning "Please enter a query.")
               else analyze env q
          else ret tt)
           {| session := session w; log := log w ++ l0 |})
      = {| session := session w; log := log w ++ l0 ++ l |} /\
    (app_widgets i = l0 -> 
     app_run i (l0 ++ l)
       (fst ((if button_Analyze i
              then if not_ q then st (warning "Please enter a query.")
                   else analyze env q
              else ret tt)
               {| session := session w; log := log w ++ l0 |}))).
Proof.
  intros ->.
  destruct (button_Analyze i) eqn:Hb.
  2:{ exists []. cbn. rewrite !app_nil_r. split; [reflexivity|].
      intros <-. now constructor. }
  destruct (not_ (query_of i)) eqn:Hq.
  { apply not_empty in Hq. eexists. split; [cbn; now rewrite <- app_assoc|].
    intros <-. now constructor. }
  assert (query_of i <> EmptyString) as Hne.
  { intros H. apply not_empty in H. congruence. }
  destruct (analyze_spec (query_of i) {| session := session w; log := log w ++ l0 |})
    as (la & Hla & Hrun).
  unfold adds in Hla. cbn [session log] in Hla.
  exists la. split; [now rewrite Hla, <- app_assoc|].
  intros <-. now constructor.
Qed.

Lemma app_spec (i : Inputs) (w : World) :
  kb_truthy (knowledge_base (session w)) = true ->
  exists l, adds (app env i) w l /\ app_run i l (fst (app env i w)).
Proof.
  intros Hkb. unfold app, adds. rewrite bind_get_session, Hkb.
  rewrite !bind_st. cbn [session log].
  destruct (analysis_type i) eqn:Ht; cbn [predefined_queries].
  all: rewrite ?bind_bind, ?bind_st; rewrite bind_ret, bind_st; cbn [session log].
  all: rewrite <- !app_assoc.
  all: match goal with
       | |- context [(if button_Analyze _ then if not_ ?q then _ else _ else _)
                       {| session := _; log := _ ++ ?l0 |}] =>
           destruct (app_press q i w l0) as (l & Hl & Hrun);
             [unfold query_of; now rewrite Ht|]
       end.
  all: eexists; split; [exact Hl|]; apply Hrun.
  all: unfold app_widgets; now rewrite Ht.
Qed.

Lemma app_skipped (i : Inputs) (w : World) :
  kb_truthy (knowledge_base (session w)) = false -> app env i w = (inr tt, w).
Proof.
  intros Hkb. unfold app. now rewrite bind_get_session, Hkb.
Qed.

Lemma rerun_spec (i : Inputs) (s : session_state) :
  script_run i s (trace (rerun env i s)) (after (rerun env i s))
             (outcome (rerun env i s)).
Proof.
  unfold rerun, trace, after, outcome, script.
  rewrite !bind_st. cbn [session log app]. fold page_head.
  destruct (sidebar_spec i {| session := s; log := page_head |})
    as (ls & s' & Hs & Hrun).
  cbn [session log] in *.
  rewrite (bind_inr _ _ _ _ _ Hs).
  rewrite (bind_inr _ _ _ _ _ (agents_spec _)). cbn [session log].
  destruct (knowledge_base s') as [kb|] eqn:Hkb; cbn [kb_truthy].
  - destruct (app_spec i {| session := s';
                            log := (page_head ++ sidebar_widgets ++ ls)
                                     ++ agent_events |})
      as (la & Hla & Happ).
    { cbn. now rewrite Hkb. }
    unfold adds in Hla. rewrite Hla. cbn [session log snd].
    rewrite <- !app_assoc. now apply with_knowledge_base with (kb := kb).
  - rewrite app_skipped by (cbn; now rewrite Hkb).
    cbn [fst snd session log]. rewrite app_nil_r.
    now apply without_knowledge_base.
Qed.

End Steps.

(** ** The query part and the indexing part of a run *)

Lemma get_response_run_query_events (q : string) (lg : list Event) (res : Exn + RunResponse) :
  get_response_run q lg res -> query_events lg = lg.
Proof. now destruct 1. Qed.

Lemma get_response_run_indexing_events (q : string) (lg : list Event) (res : Exn + RunResponse) :
  get_response_run q lg res -> indexing_events lg = [].
Proof. now destruct 1. Qed.

Lemma analyze_run_query_log (q : string) (la : list Event) (res : Exn + unit) :
  analyze_run q la res -> query_log q (query_events la) res.
Proof.
  unfold query_events.
  destruct 1 as [lg e H|lg r e H|lg r kp e H|lg r kp rc H]; cbn [List.filter is_query_event];
    rewrite ?List.filter_app; fold (query_events lg);
    rewrite (get_response_run_query_events _ _ _ H); cbn.
  - now constructor.
  - now apply log_key_points_raises.
  - now apply log_recommendations_raises.
  - now apply log_all_views.
Qed.

Lemma analyze_run_indexing_events (q : string) (la : list Event) (res : Exn + unit) :
  analyze_run q la res -> indexing_events la = [].
Proof.
  unfold indexing_events.
  destruct 1 as [lg e H|lg r e H|lg r kp e H|lg r kp rc H];
    cbn [List.filter is_indexing_event];
    rewrite ?List.filter_app; fold (indexing_events lg);
    now rewrite (get_response_run_indexing_events _ _ _ H).
Qed.

Lemma app_widgets_query_events (i : Inputs) : query_events (app_widgets i) = [].
Proof. unfold app_widgets. now destruct (analysis_type i). Qed.

Lemma app_widgets_indexing_events (i : Inputs) : indexing_events (app_widgets i) = [].
Proof. unfold app_widgets. now destruct (analysis_type i). Qed.

Lemma sidebar_run_query_events (i : Inputs) (s s' : session_state) (ls : list Event) :
  sidebar_run i s ls s' -> query_events ls = [].
Proof. now destruct 1. Qed.

Lemma app_run_indexing_events (i : Inputs) (la : list Event) (res : Exn + unit) :
  app_run i la res -> indexing_events la = [].
Proof.
  unfold indexing_events.
  destruct 1 as [|?|la res ? ? H]; rewrite ?List.filter_app;
    fold (indexing_events (app_widgets i));
    rewrite app_widgets_indexing_events; try reflexivity.
  cbn [app]. exact (analyze_run_indexing_events _ _ _ H).
Qed.

(** A run either has no query event and ends normally, or the button was
    pressed on a non-empty query with a knowledge base in the session, and
    its query events are those of [analyze]. *)
Lemma rerun_query_log (env : Env) (i : Inputs) (s : session_state) :
  (query_events (trace (rerun env i s)) = [] /\
   outcome (rerun env i s) = inr tt)
  \/ (button_Analyze i = true /\ query_of i <> EmptyString /\
      knowledge_base (after (rerun env i s)) <> None /\
      query_log (query_of i) (query_events (trace (rerun env i s)))
                (outcome (rerun env i s))).
Proof.
  destruct (rerun_spec env i s) as [ls s' Hs Hkb|ls s' kb la res Hs Hkb Happ];
    unfold query_events; rewrite !List.filter_app;
    fold (query_events ls); rewrite (sidebar_run_query_events _ _ _ _ Hs).
  { now left. }
  cbn [List.filter is_query_event page_head sidebar_widgets agent_events app].
  destruct Happ as [|?|la res Hb Hq H]; rewrite ?List.filter_app;
    fold (query_events (app_widgets i)); rewrite app_widgets_query_events.
  - now left.
  - now left.
  - right. rewrite Hkb. repeat split; try easy.
    exact (analyze_run_query_log _ _ _ H).
Qed.

(** The indexing events of a run are those of its sidebar. *)
Lemma rerun_indexing (env : Env) (i : Inputs) (s : session_state) :
  exists ls,
    sidebar_run i s ls (after (rerun env i s)) /\
    indexing_events (trace (rerun env i s)) = indexing_events ls.
Proof.
  destruct (rerun_spec env i s) as [ls s' Hs Hkb|ls s' kb la res Hs Hkb Happ];
    exists ls; (split; [exact Hs|]);
    unfold indexing_events; rewrite !List.filter_app.
  - reflexivity.
  - fold (indexing_events la). rewrite (app_run_indexing_events _ _ _ Happ).
    cbn. now rewrite app_nil_r.
Qed.

Lemma in_query_events (e : Event) (l : list Event) :
  is_query_event e = true -> In e l <-> In e (query_events l).
Proof.
  intros He. unfold query_events. rewrite List.filter_In. tauto.
Qed.

Lemma in_indexing_events (e : Event) (l : list Event) :
  is_indexing_event e = true -> In e l <-> In e (indexing_events l).
Proof.
  intros He. unfold indexing_events. rewrite List.filter_In. tauto.
Qed.

Lemma calls_query_events (l : list Event) : calls (query_events l) = calls l.
Proof.
  unfold calls, query_events.
  induction l as [|[| | | |[]] l IH]; cbn; rewrite ?IH; try reflexivity.
  destruct t; cbn; now rewrite IH.
Qed.

Ltac in_list := cbn; repeat first [left; reflexivity | right].

(** Refute membership in a list none of whose elements has the right
    shape. *)
Ltac absurd_in H :=
  cbn in H; repeat (destruct H as [H|H]; [discriminate H|]); contradiction.

(** ** The synthesis input (claim C1) *)

(** C1, as stated, fails: with stub agents answering [R], [C] and [S], the
    text the team lead receives is not the labelled concatenation of the
    three responses, neither in the layout of the source nor in the layout
    the specification prints: an instruction precedes it and another one
    follows it. *)
Lemma synthesis_input_is_framed :
  let R := {| content := Some "R"%string |} in
  let C := {| content := Some "C"%string |} in
  let S := {| content := Some "S"%string |} in
  exists p r,
    last (new_events (get_response stub_env review) (idle_world indexed_session))
      = Some (EvRun team_lead p r) /\
    p <> labeled_responses R C S /\
    p <> spec_labeled_concatenation "R" "C" "S".
Proof.
  cbn zeta. eexists _, _. split; [vm_compute; reflexivity|].
  split; intros H; vm_compute in H; discriminate H.
Qed.

(** C1, amended: for every query, either the team lead is called once, after
    the three analysis agents have been called in the order researcher,
    contract analyst, strategy agent on that same query, and its input is
    the fixed opening instruction, then the three responses under their
    headers in that order, then the fixed closing instruction; or one of the
    three analysis calls raised, it is the last call, and the team lead is
    not called. *)
Theorem synthesis_input (env : Env) (query : string) (w : World) :
  let l := new_events (get_response env query) w in
  (exists r1 r2 r3 res,
      l = [EvRun legal_researcher query (inr r1);
           EvRun contract_analyst query (inr r2);
           EvRun strategy_agent query (inr r3);
           EvRun team_lead
                 (integrate_intro +:+ labeled_responses r1 r2 r3
                                  +:+ integrate_closing) res])
  \/ (exists a e,
         a <> team_lead /\ last l = Some (EvRun a query (inl e)) /\
         forall p r, ~ In (EvRun team_lead p r) l).
Proof.
  cbn zeta.
  destruct (get_response_spec env query w) as (l & Hl & Hrun).
  rewrite (adds_new_events _ _ _ Hl).
  destruct Hrun as [e|r1 e|r1 r2 e|r1 r2 r3 res].
  4:{ left. exists r1, r2, r3, res. now rewrite integrate_prompt_parts. }
  all: right; eexists _, e; (split; [|split; [reflexivity|]]);
    [discriminate | cbn; intros p r H; intuition discriminate].
Qed.

(** ** A failing analysis agent (claim C3) *)

(** C3: in every run of the script, if a call of one of the three analysis
    agents raised, the run ends with that exception and the team lead is
    not called anywhere in the run. *)
Theorem analysis_failure_is_fatal
    (env : Env) (i : Inputs) (s : session_state) (a : Agent) (p : string) (e : Exn) :
  a <> team_lead ->
  In (EvRun a p (inl e)) (trace (rerun env i s)) ->
  outcome (rerun env i s) = inl e /\
  forall p' r', ~ In (EvRun team_lead p' r') (trace (rerun env i s)).
Proof.
  intros Ha Hin.
  apply in_query_events in Hin; [|reflexivity].
  assert (forall p' r', In (EvRun team_lead p' r') (trace (rerun env i s)) ->
                        In (EvRun team_lead p' r') (query_events (trace (rerun env i s))))
    as Htl by (intros p' r' H; apply in_query_events in H; [exact H|reflexivity]).
  destruct (rerun_query_log env i s) as [[Hnil _]|(_ & _ & _ & Hlog)].
  { rewrite Hnil in Hin. destruct Hin. }
  destruct Hlog as [lg e' Hg|lg r e' Hg|lg r kp e' Hg|lg r kp rc Hg];
    inversion Hg; subst; cbn in Hin;
    try (exfalso; intuition congruence).
  all: split; [intuition congruence|].
  all: intros p' r' H; apply Htl in H; cbn in H; intuition discriminate.
Qed.

Lemma analysis_failure_is_fatal_witness :
  let i := press_analyze (upload contract_pdf 1000 200) in
  let env := agent_down contract_analyst in
  outcome (rerun env i indexed_session) = inl (Exception "InferenceError") /\
  forall p' r', ~ In (EvRun team_lead p' r') (trace (rerun env i indexed_session)).
Proof.
  cbn zeta.
  apply (analysis_failure_is_fatal
           (agent_down contract_analyst)
           (press_analyze (upload contract_pdf 1000 200)) indexed_session
           contract_analyst review (Exception "InferenceError")).
  - discriminate.
  - vm_compute. in_list.
Defined.

(** ** The two derived views (claim C6) *)


Lemma rerun_calls_nil (env : Env) (i : Inputs) (s : session_state) :
  query_events (trace (rerun env i s)) = [] -> calls (trace (rerun env i s)) = [].
Proof. intros H. now rewrite <- calls_query_events, H. Qed.



(** ** A blank custom query (claim C7) *)

(** C7, as stated, fails: a custom query of one space is sent to the
    agents, and no warning is shown. *)
Lemma whitespace_query_reaches_agents :
  let i := press_analyze (custom_query " " (upload contract_pdf 1000 200)) in
  In (EvRun legal_researcher " " (inr {| content := Some "R"%string |}))
     (trace (rerun stub_env i indexed_session)) /\
  ~ In (EvSt (warning "Please enter a query."))
       (trace (rerun stub_env i indexed_session)).
Proof.
  cbn zeta. split; [vm_compute; in_list|].
  intros H. vm_compute in H. intuition discriminate.
Qed.

(** C7, amended: submitting an empty custom query (the empty text) calls
    no agent, the run ends normally, and where the [Analyze] button is on
    the page the warning [Please enter a query.] is shown. *)
Theorem empty_query_is_rejected (env : Env) (i : Inputs) (s : session_state) :
  analysis_type i = CustomQuery ->
  text_area i = EmptyString ->
  button_Analyze i = true ->
  calls (trace (rerun env i s)) = [] /\
  outcome (rerun env i s) = inr tt /\
  (In (EvSt (button "Analyze")) (trace (rerun env i s)) ->
   In (EvSt (warning "Please enter a query.")) (trace (rerun env i s))).
Proof.
  intros Ht Hq Hb.
  assert (query_of i = EmptyString) as Hempty
      by (unfold query_of; now rewrite Ht).
  destruct (rerun_query_log env i s) as [[Hnil Hout]|(_ & Hne & _)];
    [|contradiction].
  split; [now apply rerun_calls_nil|]. split; [exact Hout|].
  destruct (rerun_spec env i s) as [ls s' Hs Hkb|ls s' kb la res Hs Hkb Happ].
  - intros H. exfalso. destruct Hs; cbn in H; intuition discriminate.
  - intros _. destruct Happ as [Hb'|_ _|la res _ Hne _]; [congruence| |contradiction].
    rewrite !in_app_iff. do 5 right. now left.
Qed.

Lemma empty_query_is_rejected_witness :
  let i := press_analyze (custom_query EmptyString (upload contract_pdf 1000 200)) in
  calls (trace (rerun stub_env i indexed_session)) = [] /\
  outcome (rerun stub_env i indexed_session) = inr tt /\
  (In (EvSt (button "Analyze")) (trace (rerun stub_env i indexed_session)) ->
   In (EvSt (warning "Please enter a query.")) (trace (rerun stub_env i indexed_session))).
Proof.
  cbn zeta.
  apply (empty_query_is_rejected
           stub_env
           (press_analyze (custom_query EmptyString (upload contract_pdf 1000 200)))
           indexed_session); reflexivity.
Defined.

(** ** What a tab shows (claim C9) *)

(** C9: for each of the three views, if the team-lead call behind the view
    returned, the view shows exactly one text.  When the returned content
    is [None] or empty, it is the fallback text of that view and nothing
    else: [No response generated.] in the Analysis tab,
    [No summary generated.] in the Key Points tab and
    [No recommendations generated.] in the Recommendations tab, each of the
    form [No ... generated.].  Otherwise it is the returned text. *)
Theorem view_shows_text_or_placeholder
    (env : Env) (i : Inputs) (s : session_state) (t : Tab) (p : string) (r : RunResponse) :
  calls (trace (rerun env i s)) !! view_call t = Some (team_lead, p, inr r) ->
  (forall txt, In (EvSt (markdown (Some t) txt)) (trace (rerun env i s))
               <-> txt = shown t r) /\
  shown t r = match content r with
              | Some (String c s') => String c s'
              | _ => placeholder t
              end /\
  placeholder t <> EmptyString /\
  (truthy (content r) = false ->
   forall txt,
     In (EvSt (markdown (Some t) txt)) (trace (rerun env i s))
     <-> txt = match t with
               | Analysis => "No response generated."
               | KeyPoints => "No summary generated."
               | Recommendations => "No recommendations generated."
               end%string) /\
  (exists what, placeholder t = "No " +:+ what +:+ " generated.").
Proof.
  intros Hcall.
  assert (forall txt, In (EvSt (markdown (Some t) txt)) (trace (rerun env i s))
                      <-> txt = shown t r) as Hshown.
  { intros txt.
    rewrite (in_query_events (EvSt (markdown (Some t) txt))) by reflexivity.
    revert Hcall.
    destruct (rerun_query_log env i s) as [[Hnil _]|(_ & _ & _ & Hlog)].
    { rewrite (rerun_calls_nil _ _ _ Hnil). now destruct t. }
    rewrite <- calls_query_events.
    destruct Hlog as [lg e' Hg|lg r' e' Hg|lg r' kp e' Hg|lg r' kp rc Hg];
      inversion Hg; subst; destruct t; cbn; try discriminate;
      intros [= <- <-]; intuition congruence. }
  split; [exact Hshown|].
  split; [unfold shown; now destruct (content r) as [[|c s']|]|].
  split; [now destruct t|].
  split.
  - intros Hempty txt. rewrite Hshown. unfold shown. rewrite Hempty.
    now destruct t.
  - destruct t; [exists "response"%string|exists "summary"%string
                |exists "recommendations"%string]; reflexivity.
Qed.

Lemma view_shows_text_or_placeholder_witness :
  let i := press_analyze (upload contract_pdf 1000 200) in
  let nothing := {| content := None |} in
  (forall txt, In (EvSt (markdown (Some KeyPoints) txt))
                  (trace (rerun silent_env i indexed_session))
               <-> txt = shown KeyPoints nothing) /\
  shown KeyPoints nothing = placeholder KeyPoints /\
  placeholder KeyPoints <> EmptyString /\
  (truthy (content nothing) = false ->
   forall txt,
     In (EvSt (markdown (Some KeyPoints) txt))
        (trace (rerun silent_env i indexed_session))
     <-> txt = "No summary generated."%string) /\
  (exists what, placeholder KeyPoints = "No " +:+ what +:+ " generated.").
Proof.
  cbn zeta.
  apply (view_shows_text_or_placeholder
           silent_env (press_analyze (upload contract_pdf 1000 200)) indexed_session
           KeyPoints
           (key_points_prompt {| content := None |})
           {| content := None |}).
  vm_compute. reflexivity.
Defined.

(** ** No knowledge base, no agents (claim C10) *)

Lemma fresh_session_has_no_knowledge_base (on_disk : list Document) :
  knowledge_base (new_session on_disk) = None.
Proof. reflexivity. Qed.

Lemma no_upload_keeps_session (env : Env) (i : Inputs) (s : session_state) :
  uploaded_file i = None -> after (rerun env i s) = s.
Proof.
  intros Hf. destruct (rerun_indexing env i s) as (ls & Hs & _).
  destruct Hs; congruence.
Qed.

(** Nothing after the sidebar writes the session state, so the knowledge
    base the two guards read is the one the run leaves.  A run that leaves
    [None] has closed guards. *)
Lemma guards_closed (env : Env) (i : Inputs) (s : session_state) :
  knowledge_base (after (rerun env i s)) = None ->
  nothing_behind_guard (trace (rerun env i s)).
Proof.
  intros Hnone.
  destruct (rerun_spec env i s) as [ls s' Hs Hkb|ls s' kb la res Hs Hkb Happ];
    [|congruence].
  repeat split; intros; intros H; destruct Hs; absurd_in H.
Qed.

(** No run resets the knowledge base to [None]. *)
Lemma knowledge_base_stays (env : Env) (i : Inputs) (s : session_state) :
  knowledge_base (after (rerun env i s)) = None -> knowledge_base s = None.
Proof.
  destruct (rerun_indexing env i s) as (ls & Hs & _).
  destruct Hs; cbn; congruence.
Qed.

Lemma session_runs_lookup_0 (steps : list (Env * Inputs)) (s : session_state)
    (r : (Exn + unit) * World) :
  session_runs steps s !! 0%nat = Some r ->
  exists env i steps', steps = (env, i) :: steps' /\ r = rerun env i s.
Proof.
  destruct steps as [|[env i] steps']; [discriminate|].
  cbn [session_runs]. intros Hr. exists env, i, steps'.
  split; [reflexivity|]. now injection Hr.
Qed.

Lemma session_runs_lookup_S (steps : list (Env * Inputs)) (s : session_state)
    (k : nat) (r : (Exn + unit) * World) :
  session_runs steps s !! S k = Some r ->
  exists env i steps',
    steps = (env, i) :: steps' /\
    session_runs steps' (after (rerun env i s)) !! k = Some r.
Proof.
  destruct steps as [|[env i] steps']; [discriminate|].
  cbn [session_runs]. intros Hr. exists env, i, steps'.
  split; [reflexivity|exact Hr].
Qed.

(** If a run of a session leaves no knowledge base, the session started
    without one. *)
Lemma session_started_without_knowledge_base
    (steps : list (Env * Inputs)) (k : nat) :
  forall (s : session_state) (r : (Exn + unit) * World),
    session_runs steps s !! k = Some r ->
    knowledge_base (after r) = None -> knowledge_base s = None.
Proof.
  revert steps. induction k as [|k IH]; intros steps s r Hk Hnone.
  - apply session_runs_lookup_0 in Hk as (env & i & steps' & -> & ->).
    exact (knowledge_base_stays env i s Hnone).
  - apply session_runs_lookup_S in Hk as (env & i & steps' & -> & Hk).
    apply (knowledge_base_stays env i s).
    exact (IH steps' _ r Hk Hnone).
Qed.

(** X18: in every session, as long as [st.session_state.knowledge_base] is
    [None] (its initial value), that is, in every run up to a run that
    still leaves it [None], no agent is constructed, no agent is called,
    and neither the analysis-type selector nor the [Analyze] button is
    rendered. *)
Theorem no_knowledge_base_no_agents
    (steps : list (Env * Inputs)) (s : session_state)
    (k : nat) (r : (Exn + unit) * World) :
  session_runs steps s !! k = Some r ->
  knowledge_base (after r) = None ->
  forall j r', (j <= k)%nat -> session_runs steps s !! j = Some r' ->
               nothing_behind_guard (trace r').
Proof.
  intros Hk Hnone j. revert steps s k Hk.
  induction j as [|j IH]; intros steps s k Hk r' Hj Hj'.
  - apply session_runs_lookup_0 in Hj' as (env & i & steps' & -> & ->).
    apply guards_closed.
    destruct k as [|k].
    + cbn [session_runs] in Hk. injection Hk as Hr. now rewrite Hr.
    + apply session_runs_lookup_S in Hk as (env' & i' & steps'' & Heq & Hk).
      injection Heq as <- <- <-.
      exact (session_started_without_knowledge_base steps' k _ r Hk Hnone).
  - destruct k as [|k]; [lia|].
    apply session_runs_lookup_S in Hk as (env & i & steps' & -> & Hk).
    apply session_runs_lookup_S in Hj' as (env' & i' & steps'' & Heq & Hj').
    injection Heq as <- <- <-.
    apply (IH steps' _ k Hk r'); [lia|exact Hj'].
Qed.

Lemma no_knowledge_base_no_agents_witness :
  nothing_behind_guard
    (trace (rerun stub_env no_upload (new_session []))).
Proof.
  apply (no_knowledge_base_no_agents
           [(stub_env, no_upload); (stub_env, no_upload)] (new_session [])
           1%nat
           (rerun stub_env no_upload
                  (after (rerun stub_env no_upload (new_session []))))) with (j := 0%nat).
  - reflexivity.
  - vm_compute. reflexivity.
  - lia.
  - reflexivity.
Defined.

(** C10 on the code: in a fresh session (knowledge base [None], nothing
    processed) an unreadable [contract.pdf] is uploaded and [load] raises.
    No document has been uploaded successfully: the error is shown, the
    success message is not, and no name is processed.  Yet in that same run
    the four agents are constructed and the selector and the [Analyze]
    button are rendered, and a press on the button in the next run sends
    the query to the researcher. *)
Lemma failed_upload_opens_guards :
  let up := upload contract_pdf 1000 200 in
  let r1 := rerun unreadable_env up (new_session []) in
  let r2 := rerun unreadable_env (press_analyze up) (after r1) in
  knowledge_base (new_session []) = None /\
  In (processing_error (Exception "EOF marker not found")) (trace r1) /\
  ~ In indexed_message (trace r1) /\
  elements (processed_files (after r1)) = [] /\
  constructed (trace r1) =
    [EvAgent legal_researcher; EvAgent contract_analyst;
     EvAgent strategy_agent; EvAgent team_lead] /\
  In (EvSt (selectbox "Choose Analysis Type:")) (trace r1) /\
  In (EvSt (button "Analyze")) (trace r1) /\
  calls (trace r2) !! 0%nat
    = Some (legal_researcher, review, inr {| content := Some "R"%string |}).
Proof.
  cbn zeta. split; [reflexivity|].
  split; [vm_compute; in_list|].
  split; [intros H; vm_compute in H; absurd_in H|].
  split; [vm_compute; reflexivity|].
  split; [vm_compute; reflexivity|].
  split; [vm_compute; in_list|].
  split; [vm_compute; in_list|].
  vm_compute. reflexivity.
Qed.

(** ** Indexing (claims C2, C4, C5) *)

(** A run that shows the success message has put the file's name into
    [processed_files]. *)
Lemma indexed_marks_processed
    (env : Env) (i : Inputs) (s : session_state) (f : UploadedFile) :
  uploaded_file i = Some f ->
  In indexed_message (trace (rerun env i s)) ->
  name f ∈ processed_files (after (rerun env i s)).
Proof.
  intros Hf Hin. apply in_indexing_events in Hin; [|reflexivity].
  destruct (rerun_indexing env i s) as (ls & Hs & Hev). rewrite Hev in Hin.
  destruct Hs as [|? ?|? ? ? ?|? ? ? ? ? ?|f' p db Hf' Hnew];
    cbn in Hin; try (exfalso; absurd_in Hin).
  cbn. assert (f' = f) as -> by congruence.
  rewrite elem_of_union, elem_of_singleton. now right.
Qed.

(** Uploading a name that is in [processed_files] does nothing. *)
Lemma processed_upload_is_skipped
    (env : Env) (i : Inputs) (s : session_state) (f : UploadedFile) :
  uploaded_file i = Some f ->
  name f ∈ processed_files s ->
  after (rerun env i s) = s /\ indexing_events (trace (rerun env i s)) = [].
Proof.
  intros Hf Hin. destruct (rerun_indexing env i s) as (ls & Hs & ->).
  destruct Hs as [|? ?|f' ? Hf'|f' ? ? ? Hf'|f' ? ? Hf']; auto.
  all: assert (f' = f) as -> by congruence; contradiction.
Qed.

(** A run never removes a name from the set of processed files. *)
Lemma processed_files_kept
    (env : Env) (i : Inputs) (s : session_state) (x : string) :
  x ∈ processed_files s -> x ∈ processed_files (after (rerun env i s)).
Proof.
  intros Hx. destruct (rerun_indexing env i s) as (ls & Hs & _).
  destruct Hs; try exact Hx.
  cbn. rewrite elem_of_union. now left.
Qed.

Lemma session_end_keeps_processed (steps : list (Env * Inputs)) :
  forall (s : session_state) (x : string),
    x ∈ processed_files s -> x ∈ processed_files (session_end steps s).
Proof.
  induction steps as [|[env i] steps IH]; intros s x Hx; [exact Hx|].
  cbn [session_end]. apply IH. now apply processed_files_kept.
Qed.

(** C2, as stated, fails: [contract.pdf] is indexed with chunk size 1000
    and overlap 200 and then uploaded again with chunk size 20 and overlap
    5.  The collection still holds what the first indexing wrote, which is
    not what a load with the second parameters writes, and the knowledge
    base of the session still carries the first parameters; the second
    run writes no temporary file and calls no load at all. *)
Lemma reupload_keeps_first_chunks :
  let again := upload contract_pdf 20 5 in
  let r2 := rerun stub_env again indexed_session in
  documents (vector_db (after r2)) = documents (vector_db indexed_session) /\
  documents (vector_db (after r2))
    <> documents (fst (pdf_load stub_env [] (new_kb again "/tmp/upload.pdf")
                                (vector_db indexed_session))) /\
  knowledge_base (after r2)
    = Some (new_kb (upload contract_pdf 1000 200) "/tmp/upload.pdf") /\
  indexing_events (trace r2) = [].
Proof.
  cbn zeta. split; [vm_compute; reflexivity|].
  split; [|split; vm_compute; reflexivity].
  intros H. vm_compute in H. discriminate H.
Qed.

(** C2, amended: once a run has indexed a document and shown the success
    message, every later upload in the session of a file with the same
    name, whatever the chunking parameters and whatever runs came in
    between, is skipped: no temporary file is written, no load is issued,
    and the run leaves the collection, the knowledge base and the set of
    processed names exactly as they were before it. *)
Theorem reupload_is_skipped
    (env1 env2 : Env) (i1 i2 : Inputs) (s : session_state) (f1 f2 : UploadedFile)
    (between : list (Env * Inputs)) :
  uploaded_file i1 = Some f1 ->
  uploaded_file i2 = Some f2 ->
  name f2 = name f1 ->
  In indexed_message (trace (rerun env1 i1 s)) ->
  after (rerun env2 i2 (session_end between (after (rerun env1 i1 s))))
    = session_end between (after (rerun env1 i1 s)) /\
  indexing_events
    (trace (rerun env2 i2 (session_end between (after (rerun env1 i1 s))))) = [].
Proof.
  intros H1 H2 Hname Hok.
  apply processed_upload_is_skipped with (f := f2); [exact H2|].
  apply session_end_keeps_processed.
  rewrite Hname. now apply indexed_marks_processed.
Qed.

Lemma reupload_is_skipped_witness :
  let first := upload contract_pdf 1000 200 in
  let between := [(stub_env, upload other_pdf 10 1); (stub_env, no_upload)] in
  let again := upload contract_pdf 20 5 in
  let s2 := session_end between (after (rerun stub_env first (new_session []))) in
  after (rerun stub_env again s2) = s2 /\
  indexing_events (trace (rerun stub_env again s2)) = [].
Proof.
  cbn zeta.
  apply (reupload_is_skipped
           stub_env stub_env (upload contract_pdf 1000 200) (upload contract_pdf 20 5)
           (new_session []) contract_pdf contract_pdf
           [(stub_env, upload other_pdf 10 1); (stub_env, no_upload)]).
  - reflexivity.
  - reflexivity.
  - reflexivity.
  - vm_compute. in_list.
Defined.

(** C4, as stated, fails: chunk size 100 with overlap 200 lies within the
    ranges of the two number inputs, and the upload is written to the
    temporary file and loaded with these parameters; no error is shown. *)
Lemma overlap_is_not_checked :
  let i := upload contract_pdf 100 200 in
  widget_ranges i /\ overlap_in i >= chunk_size_in i /\
  indexing_events (trace (rerun stub_env i (new_session []))) =
    [EvTempWrite [] (inr "/tmp/upload.pdf"%string);
     EvLoad {| path := "/tmp/upload.pdf";
               chunking_strategy := {| chunk_size := 100; overlap := 200 |} |}
            true true None;
     indexed_message].
Proof.
  cbn zeta. split; [unfold widget_ranges; cbn; lia|].
  split; [cbn; lia|]. vm_compute. reflexivity.
Qed.

(** C4, amended: the script does not compare the overlap with the chunk
    size.  For every pair of values, an upload of a file whose name is not
    yet processed writes the temporary file and, if that succeeds, calls
    [load] on a knowledge base with exactly these two values; an error is
    shown only when one of these two calls raises, and it carries that
    exception's message. *)
Theorem indexing_ignores_overlap
    (env : Env) (i : Inputs) (s : session_state) (f : UploadedFile) :
  uploaded_file i = Some f ->
  name f ∉ processed_files s ->
  (exists e,
      indexing_events (trace (rerun env i s)) =
        [EvTempWrite (getvalue f) (inl e); processing_error e])
  \/ (exists temp_path e,
         indexing_events (trace (rerun env i s)) =
           [EvTempWrite (getvalue f) (inr temp_path);
            EvLoad {| path := temp_path;
                      chunking_strategy :=
                        {| chunk_size := chunk_size_in i;
                           overlap := overlap_in i |} |}
                   true true (Some e);
            processing_error e])
  \/ (exists temp_path,
         indexing_events (trace (rerun env i s)) =
           [EvTempWrite (getvalue f) (inr temp_path);
            EvLoad {| path := temp_path;
                      chunking_strategy :=
                        {| chunk_size := chunk_size_in i;
                           overlap := overlap_in i |} |}
                   true true None;
            indexed_message]).
Proof.
  intros Hf Hnew. destruct (rerun_indexing env i s) as (ls & Hs & ->).
  destruct Hs as [Hf'|f' Hf' Hin|f' e Hf'|f' p db e Hf'|f' p db Hf'].
  - congruence.
  - assert (f' = f) as -> by congruence. contradiction.
  - assert (f' = f) as -> by congruence. left. now exists e.
  - assert (f' = f) as -> by congruence. right. left. now exists p, e.
  - assert (f' = f) as -> by congruence. right. right. now exists p.
Qed.

Lemma not_in_empty_set (x : string) : x ∉ (∅ : gset string).
Proof. set_solver. Qed.

Lemma indexing_ignores_overlap_witness :
  let i := upload contract_pdf 100 200 in
  let tr := trace (rerun stub_env i (new_session [])) in
  (exists e,
      indexing_events tr = [EvTempWrite (getvalue contract_pdf) (inl e);
                            processing_error e])
  \/ (exists temp_path e,
         indexing_events tr =
           [EvTempWrite (getvalue contract_pdf) (inr temp_path);
            EvLoad {| path := temp_path;
                      chunking_strategy :=
                        {| chunk_size := chunk_size_in i;
                           overlap := overlap_in i |} |}
                   true true (Some e);
            processing_error e])
  \/ (exists temp_path,
         indexing_events tr =
           [EvTempWrite (getvalue contract_pdf) (inr temp_path);
            EvLoad {| path := temp_path;
                      chunking_strategy :=
                        {| chunk_size := chunk_size_in i;
                           overlap := overlap_in i |} |}
                   true true None;
            indexed_message]).
Proof.
  cbn zeta.
  apply (indexing_ignores_overlap
           stub_env (upload contract_pdf 100 200) (new_session []) contract_pdf).
  - reflexivity.
  - apply not_in_empty_set.
Defined.

(** C5 on the code: in a fresh session an unreadable [contract.pdf] is
    uploaded and [load] raises.  The error is shown and the name is not
    marked as processed, but the session is left with the knowledge base of
    the failed load, so the two guards open: the [Analyze] button is on the
    page, and when the user presses it all six agent calls are made. *)
Lemma failed_indexing_opens_queries :
  let up := upload contract_pdf 1000 200 in
  let r1 := rerun unreadable_env up (new_session []) in
  let r2 := rerun unreadable_env (press_analyze up) (after r1) in
  In (processing_error (Exception "EOF marker not found")) (trace r1) /\
  ~ In indexed_message (trace r1) /\
  elements (processed_files (after r1)) = [] /\
  knowledge_base (after r1) = Some (new_kb up "/tmp/upload.pdf") /\
  In (EvSt (button "Analyze")) (trace r1) /\
  map fst (calls (trace r2)) =
    [(legal_researcher, review); (contract_analyst, review);
     (strategy_agent, review);
     (team_lead, integrate_prompt {| content := Some "R"%string |}
                                  {| content := Some "C"%string |}
                                  {| content := Some "S"%string |});
     (team_lead, key_points_prompt {| content := Some "T"%string |});
     (team_lead, recommendations_prompt {| content := Some "T"%string |})].
Proof.
  cbn zeta. split; [vm_compute; in_list|].
  split; [intros H; vm_compute in H; intuition discriminate|].
  split; [vm_compute; reflexivity|].
  split; [vm_compute; reflexivity|].
  split; [vm_compute; in_list|].
  vm_compute. reflexivity.
Qed.

(** The same in general: whenever [load] raises, the session keeps the new
    knowledge base and the file is not marked as processed. *)
Lemma failed_load_leaves_knowledge_base
    (env : Env) (i : Inputs) (s : session_state) (kb : PDFKnowledgeBase) (e : Exn) :
  In (EvLoad kb true true (Some e)) (trace (rerun env i s)) ->
  knowledge_base (after (rerun env i s)) = Some kb /\
  processed_files (after (rerun env i s)) = processed_files s.
Proof.
  intros Hin. apply in_indexing_events in Hin; [|reflexivity].
  destruct (rerun_indexing env i s) as (ls & Hs & Hev). rewrite Hev in Hin.
  destruct Hs; cbn in Hin; try (exfalso; absurd_in Hin).
  cbn. destruct Hin as [Hx|[Hx|[Hx|[]]]]; try discriminate.
  now injection Hx as ->.
Qed.

(** * Further properties of the script *)

(** ** Exceptions *)

(** X1: a run ends with an exception exactly when its last agent call
    raised, and then with that exception: nothing else in the script lets
    an exception escape (the indexing block catches its own). *)
Theorem run_raises_iff_last_call_raised
    (env : Env) (i : Inputs) (s : session_state) (e : Exn) :
  outcome (rerun env i s) = inl e <->
  exists a p, last (calls (trace (rerun env i s))) = Some (a, p, inl e).
Proof.
  rewrite <- calls_query_events.
  destruct (rerun_query_log env i s) as [[Hnil Hout]|(_ & _ & _ & Hlog)].
  { rewrite Hnil, Hout. cbn. split; [discriminate|].
    intros (a & p & H). discriminate H. }
  destruct Hlog as [lg e' Hg|lg r e' Hg|lg r kp e' Hg|lg r kp rc Hg];
    inversion Hg; subst; cbn; split;
    try (intros [= <-]; eexists _, _; reflexivity);
    try (intros (a & p & [= <- <- <-]); reflexivity);
    try discriminate;
    intros (a & p & H); discriminate H.
Qed.

(** ** What a run does to the session state *)

(** X2: a run in which [load] is not called leaves the session state as it
    was; in particular no query, and no failure to write the temporary
    file, changes the collection, the knowledge base or the processed
    names. *)
Theorem session_changes_only_with_load
    (env : Env) (i : Inputs) (s : session_state) :
  (forall kb b1 b2 r, ~ In (EvLoad kb b1 b2 r) (trace (rerun env i s))) ->
  after (rerun env i s) = s.
Proof.
  intros Hno. destruct (rerun_indexing env i s) as (ls & Hs & Hev).
  destruct Hs as [|? ?|? ? ? ?|f p db e Hf Hnew|f p db Hf Hnew];
    try reflexivity; exfalso.
  - apply (Hno (new_kb i p) true true (Some e)).
    apply in_indexing_events; [reflexivity|]. rewrite Hev. in_list.
  - apply (Hno (new_kb i p) true true None).
    apply in_indexing_events; [reflexivity|]. rewrite Hev. in_list.
Qed.

Lemma session_changes_only_with_load_witness :
  after (rerun stub_env (press_analyze (upload contract_pdf 20 5)) indexed_session)
    = indexed_session.
Proof.
  apply (session_changes_only_with_load
           stub_env (press_analyze (upload contract_pdf 20 5)) indexed_session).
  intros kb b1 b2 r H. vm_compute in H. absurd_in H.
Defined.

(** X3: the set of processed names only grows, by at most the name of the
    uploaded file, and it grows exactly in the runs that show the success
    message, for a name that was not in it. *)
Theorem processed_files_grow (env : Env) (i : Inputs) (s : session_state) :
  (~ In indexed_message (trace (rerun env i s)) /\
   processed_files (after (rerun env i s)) = processed_files s)
  \/ (exists f,
         uploaded_file i = Some f /\ (name f ∉ processed_files s) /\
         In indexed_message (trace (rerun env i s)) /\
         processed_files (after (rerun env i s)) = processed_files s ∪ {[name f]}).
Proof.
  destruct (rerun_indexing env i s) as (ls & Hs & Hev).
  rewrite (in_indexing_events indexed_message) by reflexivity. rewrite Hev.
  destruct Hs as [|? ?|? ? ? ?|f p db e Hf Hnew|f p db Hf Hnew].
  1-4: left; split; [|reflexivity]; intros Hx;
    unfold indexed_message, processing_error in Hx; absurd_in Hx.
  right. exists f. repeat split; try assumption.
  apply in_indexing_events; [reflexivity|]. rewrite Hev. in_list.
Qed.

(** X4: a run that shows the success message has written the upload to a
    temporary file, has called [load(recreate=True, upsert=True)] once, on
    the knowledge base made of that file's path and the two widget values,
    and leaves exactly this knowledge base in the session, replacing any
    earlier one. *)
Theorem indexed_knowledge_base (env : Env) (i : Inputs) (s : session_state) :
  In indexed_message (trace (rerun env i s)) ->
  exists f temp_path,
    uploaded_file i = Some f /\
    indexing_events (trace (rerun env i s)) =
      [EvTempWrite (getvalue f) (inr temp_path);
       EvLoad {| path := temp_path;
                 chunking_strategy :=
                   {| chunk_size := chunk_size_in i; overlap := overlap_in i |} |}
              true true None;
       indexed_message] /\
    knowledge_base (after (rerun env i s)) =
      Some {| path := temp_path;
              chunking_strategy :=
                {| chunk_size := chunk_size_in i; overlap := overlap_in i |} |}.
Proof.
  intros Hin. apply in_indexing_events in Hin; [|reflexivity].
  destruct (rerun_indexing env i s) as (ls & Hs & Hev). rewrite Hev in *.
  destruct Hs as [|? ?|? ? ? ?|f p db e Hf Hnew|f p db Hf Hnew];
    try (exfalso; unfold indexed_message, processing_error in Hin; absurd_in Hin).
  exists f, p. repeat split; first [assumption | reflexivity].
Qed.

Lemma indexed_knowledge_base_witness :
  exists f temp_path,
    uploaded_file (upload contract_pdf 300 30) = Some f /\
    indexing_events (trace (rerun stub_env (upload contract_pdf 300 30) (new_session []))) =
      [EvTempWrite (getvalue f) (inr temp_path);
       EvLoad {| path := temp_path;
                 chunking_strategy :=
                   {| chunk_size := chunk_size_in (upload contract_pdf 300 30);
                      overlap := overlap_in (upload contract_pdf 300 30) |} |}
              true true None;
       indexed_message] /\
    knowledge_base (after (rerun stub_env (upload contract_pdf 300 30) (new_session []))) =
      Some {| path := temp_path;
              chunking_strategy :=
                {| chunk_size := chunk_size_in (upload contract_pdf 300 30);
                   overlap := overlap_in (upload contract_pdf 300 30) |} |}.
Proof.
  apply (indexed_knowledge_base stub_env (upload contract_pdf 300 30) (new_session [])).
  vm_compute. in_list.
Defined.

(** X5: an upload that ended with the error message is not remembered: the
    next run with a file of that name tries again, starting with a new
    temporary file. *)
Theorem failed_upload_is_retried
    (env1 env2 : Env) (i1 i2 : Inputs) (s : session_state)
    (f1 f2 : UploadedFile) (e : Exn) :
  uploaded_file i1 = Some f1 ->
  uploaded_file i2 = Some f2 ->
  name f2 = name f1 ->
  In (processing_error e) (trace (rerun env1 i1 s)) ->
  exists r,
    In (EvTempWrite (getvalue f2) r)
       (trace (rerun env2 i2 (after (rerun env1 i1 s)))).
Proof.
  intros H1 H2 Hname Herr.
  apply in_indexing_events in Herr; [|reflexivity].
  destruct (rerun_indexing env1 i1 s) as (ls & Hs & Hev). rewrite Hev in Herr.
  assert (name f2 ∉ processed_files (after (rerun env1 i1 s))) as Hnew.
  { rewrite Hname.
    destruct Hs as [|? ?|f e' Hf Hnew|f p db e' Hf Hnew|f p db Hf Hnew];
      try (exfalso; unfold processing_error in Herr; absurd_in Herr);
      cbn; congruence. }
  clear Hs Hev Herr.
  destruct (rerun_indexing env2 i2 (after (rerun env1 i1 s))) as (ls2 & Hs2 & Hev2).
  assert (forall r, In (EvTempWrite (getvalue f2) r) ls2 ->
                    In (EvTempWrite (getvalue f2) r)
                       (trace (rerun env2 i2 (after (rerun env1 i1 s))))) as Hback.
  { intros r Hr.
    apply (proj2 (in_indexing_events (EvTempWrite (getvalue f2) r) _ eq_refl)).
    rewrite Hev2.
    exact (proj1 (in_indexing_events (EvTempWrite (getvalue f2) r) _ eq_refl) Hr). }
  destruct Hs2 as [Hf|f Hf Hin|f e' Hf _|f p db e' Hf _|f p db Hf _].
  - congruence.
  - assert (f = f2) as -> by congruence. contradiction.
  - assert (f = f2) as -> by congruence. eexists. apply Hback. in_list.
  - assert (f = f2) as -> by congruence. eexists. apply Hback. in_list.
  - assert (f = f2) as -> by congruence. eexists. apply Hback. in_list.
Qed.

Lemma failed_upload_is_retried_witness :
  exists r,
    In (EvTempWrite (getvalue contract_pdf) r)
       (trace (rerun stub_env (upload contract_pdf 1000 200)
                     (after (rerun unreadable_env (upload contract_pdf 1000 200)
                                   (new_session []))))).
Proof.
  apply (failed_upload_is_retried
           unreadable_env stub_env
           (upload contract_pdf 1000 200) (upload contract_pdf 1000 200)
           (new_session []) contract_pdf contract_pdf
           (Exception "EOF marker not found")).
  - reflexivity.
  - reflexivity.
  - reflexivity.
  - vm_compute. in_list.
Defined.

(** Every run keeps [processed_has_knowledge_base]. *)
Lemma rerun_keeps_processed_has_knowledge_base
    (env : Env) (i : Inputs) (s : session_state) :
  processed_has_knowledge_base s ->
  processed_has_knowledge_base (after (rerun env i s)).
Proof.
  intros Hinv. destruct (rerun_indexing env i s) as (ls & Hs & _).
  destruct Hs; try exact Hinv; intros x _; discriminate.
Qed.

Lemma session_keeps_processed_has_knowledge_base
    (steps : list (Env * Inputs)) (k : nat) :
  forall (s : session_state) (r : (Exn + unit) * World),
    session_runs steps s !! k = Some r ->
    processed_has_knowledge_base s ->
    processed_has_knowledge_base (after r).
Proof.
  revert steps. induction k as [|k IH]; intros steps s r Hk Hinv.
  - apply session_runs_lookup_0 in Hk as (env & i & steps' & -> & ->).
    now apply rerun_keeps_processed_has_knowledge_base.
  - apply session_runs_lookup_S in Hk as (env & i & steps' & -> & Hk).
    apply (IH steps' _ r Hk).
    now apply rerun_keeps_processed_has_knowledge_base.
Qed.

(** X6: at every point of a session that started fresh, a name in the set
    of processed files comes with a knowledge base in the session: a
    document counted as processed always leaves the analysis page open. *)
Theorem processed_file_has_knowledge_base
    (steps : list (Env * Inputs)) (on_disk : list Document)
    (k : nat) (r : (Exn + unit) * World) (x : string) :
  session_runs steps (new_session on_disk) !! k = Some r ->
  x ∈ processed_files (after r) ->
  knowledge_base (after r) <> None.
Proof.
  intros Hk. apply (session_keeps_processed_has_knowledge_base steps k _ r Hk).
  intros y Hy. cbn in Hy. now apply not_elem_of_empty in Hy.
Qed.

Lemma processed_file_has_knowledge_base_witness :
  knowledge_base
    (after (rerun stub_env no_upload
                  (after (rerun stub_env (upload contract_pdf 1000 200)
                                (new_session [])))))
    <> None.
Proof.
  apply (processed_file_has_knowledge_base
           [(stub_env, upload contract_pdf 1000 200); (stub_env, no_upload)] []
           1%nat
           (rerun stub_env no_upload
                  (after (rerun stub_env (upload contract_pdf 1000 200)
                                (new_session []))))
           (name contract_pdf)).
  - reflexivity.
  - vm_compute. reflexivity.
Defined.

(** ** The analysis page *)

(** X7: once the session has a knowledge base, later runs keep it and
    render the analysis page: the four agents are built, and the selector
    and the [Analyze] button are shown, whatever the run's upload does. *)
Theorem analysis_page_stays (env : Env) (i : Inputs) (s : session_state) :
  knowledge_base s <> None ->
  knowledge_base (after (rerun env i s)) <> None /\
  In (EvSt (selectbox "Choose Analysis Type:")) (trace (rerun env i s)) /\
  In (EvSt (button "Analyze")) (trace (rerun env i s)) /\
  forall a, In (EvAgent a) (trace (rerun env i s)).
Proof.
  intros Hkb.
  destruct (rerun_spec env i s) as [ls s' Hs Hkb'|ls s' kb la res Hs Hkb' Happ].
  { exfalso. destruct Hs; solve [contradiction | discriminate Hkb']. }
  split; [congruence|].
  assert (exists la', la = app_widgets i ++ la') as (la' & ->).
  { destruct Happ; [exists []; now rewrite app_nil_r|eexists; reflexivity..]. }
  rewrite !in_app_iff.
  split; [do 4 right; left; in_list|].
  split.
  - do 4 right. left. unfold app_widgets. destruct (analysis_type i); in_list.
  - intros a. rewrite !in_app_iff. do 3 right. left. destruct a; in_list.
Qed.

Lemma analysis_page_stays_witness :
  knowledge_base (after (rerun unreadable_env (upload {| name := "other.pdf"; getvalue := [] |} 10 1)
                               indexed_session)) <> None /\
  In (EvSt (selectbox "Choose Analysis Type:"))
     (trace (rerun unreadable_env (upload {| name := "other.pdf"; getvalue := [] |} 10 1)
                   indexed_session)) /\
  In (EvSt (button "Analyze"))
     (trace (rerun unreadable_env (upload {| name := "other.pdf"; getvalue := [] |} 10 1)
                   indexed_session)) /\
  forall a,
    In (EvAgent a)
       (trace (rerun unreadable_env (upload {| name := "other.pdf"; getvalue := [] |} 10 1)
                     indexed_session)).
Proof.
  apply (analysis_page_stays
           unreadable_env (upload {| name := "other.pdf"; getvalue := [] |} 10 1)
           indexed_session).
  vm_compute. discriminate.
Defined.

Lemma filter_none {A} (f g : A -> bool) (l : list A) :
  Forall (fun e => g e = true) l ->
  (forall e, g e = true -> f e = false) ->
  List.filter f l = [].
Proof.
  intros Hall Hfg. induction Hall as [|e l He _ IH]; [reflexivity|].
  cbn. now rewrite (Hfg e He).
Qed.

Lemma analyze_run_events (q : string) (la : list Event) (res : Exn + unit) :
  analyze_run q la res -> Forall (fun e => is_analyze_event e = true) la.
Proof.
  destruct 1 as [lg e H|lg r e H|lg r kp e H|lg r kp rc H];
    inversion H; subst; cbn; repeat constructor.
Qed.

Lemma app_run_constructed (i : Inputs) (la : list Event) (res : Exn + unit) :
  app_run i la res -> constructed la = [].
Proof.
  unfold constructed.
  destruct 1 as [|?|la res ? ? H]; rewrite ?List.filter_app.
  - unfold app_widgets. now destruct (analysis_type i).
  - unfold app_widgets. now destruct (analysis_type i).
  - rewrite (filter_none _ _ la (analyze_run_events _ _ _ H)).
    + unfold app_widgets. now destruct (analysis_type i).
    + now intros [| | | |[]].
Qed.

(** X8: the four agents are constructed anew in every run that reaches the
    guard with a knowledge base, in the order researcher, contract analyst,
    strategy agent, team lead, whether or not the button is pressed; in a
    run without a knowledge base none is constructed. *)
Theorem agents_are_built_in_every_run (env : Env) (i : Inputs) (s : session_state) :
  constructed (trace (rerun env i s)) =
  if kb_truthy (knowledge_base (after (rerun env i s)))
  then [EvAgent legal_researcher; EvAgent contract_analyst;
        EvAgent strategy_agent; EvAgent team_lead]
  else [].
Proof.
  destruct (rerun_spec env i s) as [ls s' Hs Hkb|ls s' kb la res Hs Hkb Happ];
    rewrite Hkb; unfold constructed; rewrite !List.filter_app.
  - destruct Hs; reflexivity.
  - fold (constructed la). rewrite (app_run_constructed _ _ _ Happ).
    destruct Hs; reflexivity.
Qed.

(** A run, seen through its query events. *)
Lemma rerun_query_view (env : Env) (i : Inputs) (s : session_state) :
  exists Q,
    (forall e, is_query_event e = true ->
               In e (trace (rerun env i s)) <-> In e Q) /\
    calls (trace (rerun env i s)) = calls Q /\
    ((Q = [] /\ outcome (rerun env i s) = inr tt)
     \/ (button_Analyze i = true /\ query_of i <> EmptyString /\
         knowledge_base (after (rerun env i s)) <> None /\
         query_log (query_of i) Q (outcome (rerun env i s)))).
Proof.
  exists (query_events (trace (rerun env i s))).
  split; [intros e He; now apply in_query_events|].
  split; [now rewrite calls_query_events|].
  apply rerun_query_log.
Qed.

(** With a knowledge base, the button pressed and a non-empty query, the
    run analyzes. *)
Lemma rerun_analyzed (env : Env) (i : Inputs) (s : session_state) :
  knowledge_base (after (rerun env i s)) <> None ->
  button_Analyze i = true ->
  query_of i <> EmptyString ->
  query_log (query_of i) (query_events (trace (rerun env i s)))
            (outcome (rerun env i s)).
Proof.
  intros Hkb Hb Hq.
  destruct (rerun_spec env i s) as [ls s' Hs Hkb'|ls s' kb la res Hs Hkb' Happ];
    [contradiction|].
  unfold query_events. rewrite !List.filter_app.
  fold (query_events ls). rewrite (sidebar_run_query_events _ _ _ _ Hs).
  cbn [List.filter is_query_event page_head sidebar_widgets agent_events app].
  destruct Happ as [Hb'|_ Hq'|la res _ _ H]; [congruence|contradiction|].
  rewrite List.filter_app. fold (query_events (app_widgets i)).
  rewrite app_widgets_query_events.
  exact (analyze_run_query_log _ _ _ H).
Qed.

Lemma predefined_query_of (i : Inputs) :
  analysis_type i <> CustomQuery ->
  predefined_queries (analysis_type i) = Some (query_of i) /\
  query_of i <> EmptyString.
Proof.
  unfold query_of. destruct (analysis_type i); intros Ht;
    try contradiction; (split; [reflexivity|]);
    intros H; vm_compute in H; discriminate H.
Qed.

(** X9: each of the four predefined analysis types has a non-empty query
    in the dictionary, so with a knowledge base in the session a press on
    [Analyze] always starts the analysis: the first call of the run is the
    researcher on the dictionary's text. *)
Theorem predefined_query_is_analyzed (env : Env) (i : Inputs) (s : session_state) :
  analysis_type i <> CustomQuery ->
  button_Analyze i = true ->
  knowledge_base (after (rerun env i s)) <> None ->
  exists q res,
    predefined_queries (analysis_type i) = Some q /\ q <> EmptyString /\
    calls (trace (rerun env i s)) !! 0%nat = Some (legal_researcher, q, res).
Proof.
  intros Ht Hb Hkb.
  destruct (predefined_query_of i Ht) as [Hq Hne].
  pose proof (rerun_analyzed env i s Hkb Hb Hne) as Hlog.
  rewrite <- calls_query_events.
  exists (query_of i).
  destruct Hlog as [lg e' Hg|lg r e' Hg|lg r kp e' Hg|lg r kp rc Hg];
    inversion Hg; subst; cbn; eexists; (split; [exact Hq|]);
    (split; [exact Hne|reflexivity]).
Qed.

Lemma predefined_query_is_analyzed_witness :
  exists q res,
    predefined_queries RiskAssessment = Some q /\ q <> EmptyString /\
    calls (trace (rerun stub_env
                        {| chunk_size_in := 1000; overlap_in := 200;
                           uploaded_file := None; analysis_type := RiskAssessment;
                           text_area := EmptyString; button_Analyze := true;
                           viewed_tab := Analysis |}
                        indexed_session)) !! 0%nat
      = Some (legal_researcher, q, res).
Proof.
  apply (predefined_query_is_analyzed
           stub_env
           {| chunk_size_in := 1000; overlap_in := 200;
              uploaded_file := None; analysis_type := RiskAssessment;
              text_area := EmptyString; button_Analyze := true;
              viewed_tab := Analysis |}
           indexed_session).
  - discriminate.
  - reflexivity.
  - vm_compute. discriminate.
Defined.

(** ** The query *)

(** X10: every call of an analysis agent in a run is made on the query of
    that run, unchanged: the text of the text area for a custom query (it
    is neither trimmed nor rewritten), the dictionary's text otherwise; and
    that text is never empty. *)
Theorem analysis_agents_get_the_query
    (env : Env) (i : Inputs) (s : session_state)
    (a : Agent) (p : string) (r : Exn + RunResponse) :
  In (EvRun a p r) (trace (rerun env i s)) ->
  a <> team_lead ->
  p <> EmptyString /\
  match analysis_type i with
  | CustomQuery => p = text_area i
  | t => predefined_queries t = Some p
  end.
Proof.
  intros Hin Ha.
  destruct (rerun_query_view env i s) as (Q & HQ & _ & Hcase).
  apply HQ in Hin; [|reflexivity].
  destruct Hcase as [[-> _]|(_ & Hne & _ & Hlog)]; [destruct Hin|].
  assert (p = query_of i) as ->.
  { remember (query_of i) as q eqn:Eq. clear Eq Hne HQ.
    destruct Hlog as [lg e' Hg|lg r' e' Hg|lg r' kp e' Hg|lg r' kp rc Hg];
      inversion Hg; subst; cbn in Hin;
      repeat (destruct Hin as [Hin|Hin];
              [first [discriminate Hin
                     |injection Hin as <- <- <-; first [reflexivity|contradiction]]|]);
      destruct Hin. }
  split; [exact Hne|].
  destruct (analysis_type i) eqn:Ht; unfold query_of; rewrite Ht; reflexivity.
Qed.

Lemma analysis_agents_get_the_query_witness :
  let i := press_analyze (custom_query " two  spaces " (upload contract_pdf 1000 200)) in
  " two  spaces "%string <> EmptyString /\
  match analysis_type i with
  | CustomQuery => " two  spaces "%string = text_area i
  | t => predefined_queries t = Some " two  spaces "%string
  end.
Proof.
  cbn zeta.
  apply (analysis_agents_get_the_query
           stub_env
           (press_analyze (custom_query " two  spaces " (upload contract_pdf 1000 200)))
           indexed_session strategy_agent " two  spaces "
           (inr {| content := Some "S"%string |})).
  - vm_compute. in_list.
  - discriminate.
Defined.

(** X11: a run in which the [Analyze] button is not pressed makes no
    [agent.run] call, on none of the four agents, and ends normally. *)
Theorem no_press_no_calls (env : Env) (i : Inputs) (s : session_state) :
  button_Analyze i = false ->
  calls (trace (rerun env i s)) = [] /\ outcome (rerun env i s) = inr tt.
Proof.
  intros Hb.
  destruct (rerun_query_view env i s) as (Q & _ & -> & Hcase).
  destruct Hcase as [[-> Hout]|(Hb' & _)]; [|congruence].
  now split.
Qed.

Lemma no_press_no_calls_witness :
  calls (trace (rerun stub_env (upload contract_pdf 1000 200) (new_session []))) = [] /\
  outcome (rerun stub_env (upload contract_pdf 1000 200) (new_session [])) = inr tt.
Proof.
  apply (no_press_no_calls stub_env (upload contract_pdf 1000 200) (new_session [])).
  reflexivity.
Defined.

(** ** Partial and complete analyses *)

(** X12: when the key-points call (the fifth call) raises, the run ends
    with that exception after exactly five calls: the report is already
    shown in the first tab, the other two tabs show no text, and the
    recommendations call is not made. *)
Theorem key_points_failure
    (env : Env) (i : Inputs) (s : session_state) (p : string) (e : Exn) :
  calls (trace (rerun env i s)) !! 4%nat = Some (team_lead, p, inl e) ->
  outcome (rerun env i s) = inl e /\
  length (calls (trace (rerun env i s))) = 5%nat /\
  (exists q response,
      calls (trace (rerun env i s)) !! 3%nat = Some (team_lead, q, inr response) /\
      In (EvSt (markdown (Some Analysis) (shown Analysis response)))
         (trace (rerun env i s))) /\
  (forall txt, ~ In (EvSt (markdown (Some KeyPoints) txt)) (trace (rerun env i s))) /\
  (forall txt, ~ In (EvSt (markdown (Some Recommendations) txt)) (trace (rerun env i s))).
Proof.
  destruct (rerun_query_view env i s) as (Q & HQ & -> & Hcase).
  destruct Hcase as [[-> _]|(_ & _ & _ & Hlog)]; [discriminate|].
  destruct Hlog as [lg e' Hg|lg r' e' Hg|lg r' kp e' Hg|lg r' kp rc Hg];
    inversion Hg; subst; cbn; try discriminate; intros [= <- <-].
  split; [reflexivity|]. split; [reflexivity|]. split; [|split].
  - eexists _, r'. split; [reflexivity|].
    apply HQ; [reflexivity|]. in_list.
  - intros txt H. apply HQ in H; [|reflexivity]. absurd_in H.
  - intros txt H. apply HQ in H; [|reflexivity]. absurd_in H.
Qed.

Lemma key_points_failure_witness :
  let r := rerun fifth_call_down (press_analyze (upload contract_pdf 1000 200))
                 indexed_session in
  outcome r = inl (Exception "InferenceError") /\
  length (calls (trace r)) = 5%nat /\
  (exists q response,
      calls (trace r) !! 3%nat = Some (team_lead, q, inr response) /\
      In (EvSt (markdown (Some Analysis) (shown Analysis response))) (trace r)) /\
  (forall txt, ~ In (EvSt (markdown (Some KeyPoints) txt)) (trace r)) /\
  (forall txt, ~ In (EvSt (markdown (Some Recommendations) txt)) (trace r)).
Proof.
  cbn zeta.
  apply (key_points_failure
           fifth_call_down (press_analyze (upload contract_pdf 1000 200))
           indexed_session
           (key_points_prompt {| content := Some "T"%string |})
           (Exception "InferenceError")).
  vm_compute. reflexivity.
Defined.

(** X13: a run that called an agent and ended normally made exactly six
    calls, all of which returned: the three analysis agents on the query,
    then the team lead on the integration prompt, on the key-points prompt
    and on the recommendations prompt of the report; and each of the three
    tabs shows the text of its call. *)
Theorem completed_analysis (env : Env) (i : Inputs) (s : session_state) :
  outcome (rerun env i s) = inr tt ->
  calls (trace (rerun env i s)) <> [] ->
  exists q r1 r2 r3 response kp rc,
    calls (trace (rerun env i s)) =
      [(legal_researcher, q, inr r1); (contract_analyst, q, inr r2);
       (strategy_agent, q, inr r3);
       (team_lead, integrate_prompt r1 r2 r3, inr response);
       (team_lead, key_points_prompt response, inr kp);
       (team_lead, recommendations_prompt response, inr rc)] /\
    In (EvSt (markdown (Some Analysis) (shown Analysis response)))
       (trace (rerun env i s)) /\
    In (EvSt (markdown (Some KeyPoints) (shown KeyPoints kp)))
       (trace (rerun env i s)) /\
    In (EvSt (markdown (Some Recommendations) (shown Recommendations rc)))
       (trace (rerun env i s)).
Proof.
  destruct (rerun_query_view env i s) as (Q & HQ & -> & Hcase).
  destruct Hcase as [[-> _]|(_ & _ & _ & Hlog)]; [intros _ H; now destruct H|].
  destruct Hlog as [lg e' Hg|lg r' e' Hg|lg r' kp e' Hg|lg r' kp rc Hg];
    try discriminate.
  intros _ _. inversion Hg; subst.
  eexists _, _, _, _, r', kp, rc. split; [reflexivity|].
  repeat split; (apply HQ; [reflexivity|]); in_list.
Qed.

Lemma completed_analysis_witness :
  let r := rerun stub_env (press_analyze (upload contract_pdf 1000 200))
                 indexed_session in
  exists q r1 r2 r3 response kp rc,
    calls (trace r) =
      [(legal_researcher, q, inr r1); (contract_analyst, q, inr r2);
       (strategy_agent, q, inr r3);
       (team_lead, integrate_prompt r1 r2 r3, inr response);
       (team_lead, key_points_prompt response, inr kp);
       (team_lead, recommendations_prompt response, inr rc)] /\
    In (EvSt (markdown (Some Analysis) (shown Analysis response))) (trace r) /\
    In (EvSt (markdown (Some KeyPoints) (shown KeyPoints kp))) (trace r) /\
    In (EvSt (markdown (Some Recommendations) (shown Recommendations rc))) (trace r).
Proof.
  cbn zeta.
  apply (completed_analysis
           stub_env (press_analyze (upload contract_pdf 1000 200)) indexed_session).
  - vm_compute. reflexivity.
  - vm_compute. discriminate.
Defined.

Lemma shown_not_empty (t : Tab) (r : RunResponse) : shown t r <> EmptyString.
Proof.
  unfold shown. destruct (content r) as [[|c s']|]; cbn; try discriminate.
  all: now destruct t.
Qed.

(** X14: no tab ever shows an empty text: whatever the model returns,
    [None] and the empty text included, the text put into a tab has at
    least one character. *)
Theorem views_are_never_blank
    (env : Env) (i : Inputs) (s : session_state) (t : Tab) (txt : string) :
  In (EvSt (markdown (Some t) txt)) (trace (rerun env i s)) ->
  txt <> EmptyString.
Proof.
  intros Hin.
  destruct (rerun_query_view env i s) as (Q & HQ & _ & Hcase).
  apply HQ in Hin; [|reflexivity]. clear HQ.
  destruct Hcase as [[-> _]|(_ & _ & _ & Hlog)]; [destruct Hin|].
  destruct Hlog as [lg e' Hg|lg r' e' Hg|lg r' kp e' Hg|lg r' kp rc Hg];
    inversion Hg; subst; cbn in Hin;
    repeat (destruct Hin as [Hin|Hin];
            [first [discriminate Hin
                   |injection Hin as <- <-; apply shown_not_empty]|]);
    destruct Hin.
Qed.

Lemma views_are_never_blank_witness :
  shown KeyPoints {| content := None |} <> EmptyString.
Proof.
  apply (views_are_never_blank
           silent_env (press_analyze (upload contract_pdf 1000 200)) indexed_session
           KeyPoints).
  vm_compute. in_list.
Defined.

(** X16: a tab shows a text only in a run whose report call (the fourth
    call) returned: when an analysis agent or the report call raises,
    nothing is put into any tab. *)
Theorem views_need_the_report
    (env : Env) (i : Inputs) (s : session_state) (t : Tab) (txt : string) :
  In (EvSt (markdown (Some t) txt)) (trace (rerun env i s)) ->
  exists p response,
    calls (trace (rerun env i s)) !! 3%nat = Some (team_lead, p, inr response).
Proof.
  intros Hin.
  destruct (rerun_query_view env i s) as (Q & HQ & -> & Hcase).
  apply HQ in Hin; [|reflexivity]. clear HQ.
  destruct Hcase as [[-> _]|(_ & _ & _ & Hlog)]; [destruct Hin|].
  destruct Hlog as [lg e' Hg|lg r' e' Hg|lg r' kp e' Hg|lg r' kp rc Hg];
    inversion Hg; subst; try (exfalso; absurd_in Hin);
    cbn; eexists _, _; reflexivity.
Qed.

Lemma views_need_the_report_witness :
  exists p response,
    calls (trace (rerun fifth_call_down (press_analyze (upload contract_pdf 1000 200))
                        indexed_session)) !! 3%nat
      = Some (team_lead, p, inr response).
Proof.
  apply (views_need_the_report
           fifth_call_down (press_analyze (upload contract_pdf 1000 200))
           indexed_session Analysis "T").
  vm_compute. in_list.
Defined.

(** X17: a report without content is still passed on.  When the report
    call returns [None] or the empty text, the first tab shows
    [No response generated.], and the key-points call is made all the
    same, on the instruction followed by the word [None] or by nothing:
    the fallback text is shown, never summarised. *)
Theorem empty_report_is_still_summarised
    (env : Env) (i : Inputs) (s : session_state) (p : string) (response : RunResponse) :
  calls (trace (rerun env i s)) !! 3%nat = Some (team_lead, p, inr response) ->
  truthy (content response) = false ->
  In (EvSt (markdown (Some Analysis) "No response generated."))
     (trace (rerun env i s)) /\
  exists kp,
    calls (trace (rerun env i s)) !! 4%nat =
      Some (team_lead,
            "Summarize the key legal points from this analysis:" +:+ nl
              +:+ match content response with
                  | None => "None"
                  | Some _ => EmptyString
                  end,
            kp).
Proof.
  destruct (rerun_query_view env i s) as (Q & HQ & -> & Hcase).
  destruct Hcase as [[-> _]|(_ & _ & _ & Hlog)]; [discriminate|].
  assert (forall r, truthy (content r) = false ->
                    shown Analysis r = "No response generated."%string /\
                    key_points_prompt r =
                      "Summarize the key legal points from this analysis:" +:+ nl
                        +:+ match content r with
                            | None => "None"
                            | Some _ => EmptyString
                            end) as Hempty.
  { intros r Hr. unfold shown, key_points_prompt. rewrite Hr.
    destruct (content r) as [[|c s']|]; [|discriminate Hr|]; now split. }
  destruct Hlog as [lg e' Hg|lg r' e' Hg|lg r' kp e' Hg|lg r' kp rc Hg];
    inversion Hg; subst; cbn; try discriminate; intros [= <- <-] Hr;
    destruct (Hempty _ Hr) as [Hshown <-];
    (split; [apply HQ; [reflexivity|]; rewrite <- Hshown; in_list
            |eexists; reflexivity]).
Qed.

Lemma empty_report_is_still_summarised_witness :
  let r := rerun silent_env (press_analyze (upload contract_pdf 1000 200))
                 indexed_session in
  In (EvSt (markdown (Some Analysis) "No response generated.")) (trace r) /\
  exists kp,
    calls (trace r) !! 4%nat =
      Some (team_lead,
            "Summarize the key legal points from this analysis:" +:+ nl +:+ "None",
            kp).
Proof.
  cbn zeta.
  apply (empty_report_is_still_summarised
           silent_env (press_analyze (upload contract_pdf 1000 200)) indexed_session
           (integrate_prompt {| content := None |} {| content := None |}
                             {| content := None |})
           {| content := None |}).
  - vm_compute. reflexivity.
  - reflexivity.
Defined.

(** ** The warning *)

Lemma app_widgets_no_warning (i : Inputs) (m : string) :
  ~ In (EvSt (warning m)) (app_widgets i).
Proof.
  unfold app_widgets. intros H. destruct (analysis_type i); absurd_in H.
Qed.

(** X15: a warning appears in a run only as [Please enter a query.], and
    only when the button was pressed on a custom query whose text area is
    empty; such a run calls no agent.  No predefined analysis type ever
    produces it. *)
Theorem warning_means_empty_custom_query
    (env : Env) (i : Inputs) (s : session_state) (m : string) :
  In (EvSt (warning m)) (trace (rerun env i s)) ->
  m = "Please enter a query."%string /\
  analysis_type i = CustomQuery /\ text_area i = EmptyString /\
  button_Analyze i = true /\
  calls (trace (rerun env i s)) = [].
Proof.
  intros Hin.
  assert (m = "Please enter a query."%string /\ button_Analyze i = true /\
          query_of i = EmptyString) as (-> & Hb & Hq).
  { destruct (rerun_spec env i s) as [ls s' Hs Hkb|ls s' kb la res Hs Hkb Happ].
    { exfalso. destruct Hs; absurd_in Hin. }
    rewrite !in_app_iff in Hin.
    destruct Hin as [Hin|[Hin|[Hin|[Hin|Hin]]]];
      try (exfalso; absurd_in Hin).
    { exfalso. destruct Hs; absurd_in Hin. }
    destruct Happ as [Hb|Hb Hq|la res Hb Hq H].
    - exfalso. exact (app_widgets_no_warning i m Hin).
    - apply in_app_iff in Hin as [Hin|Hin];
        [exfalso; exact (app_widgets_no_warning i m Hin)|].
      destruct Hin as [[= <-]|[]]. now repeat split.
    - exfalso. apply in_app_iff in Hin as [Hin|Hin];
        [exact (app_widgets_no_warning i m Hin)|].
      pose proof (analyze_run_events _ _ _ H) as Hall.
      rewrite List.Forall_forall in Hall. now apply Hall in Hin. }
  split; [reflexivity|].
  assert (analysis_type i = CustomQuery) as Ht.
  { destruct (analysis_type i) eqn:Ht; try reflexivity; exfalso;
      apply (proj2 (predefined_query_of i ltac:(rewrite Ht; discriminate))); exact Hq. }
  split; [exact Ht|]. split; [unfold query_of in Hq; now rewrite Ht in Hq|].
  split; [exact Hb|].
  destruct (rerun_query_view env i s) as (Q & _ & -> & Hcase).
  destruct Hcase as [[-> _]|(_ & Hne & _)]; [reflexivity|contradiction].
Qed.

Lemma warning_means_empty_custom_query_witness :
  let i := press_analyze (custom_query EmptyString (upload contract_pdf 1000 200)) in
  "Please enter a query."%string = "Please enter a query."%string /\
  analysis_type i = CustomQuery /\ text_area i = EmptyString /\
  button_Analyze i = true /\
  calls (trace (rerun stub_env i indexed_session)) = [].
Proof.
  cbn zeta.
  apply (warning_means_empty_custom_query
           stub_env
           (press_analyze (custom_query EmptyString (upload contract_pdf 1000 200)))
           indexed_session).
  vm_compute. in_list.
Defined.

(** ** The chunk indexer of the specification (claim C8) *)

Local Open Scope nat_scope.

Section ChunkingProperties.

Context {A : Type}.

Variables chunk_size overlap : nat.

Hypothesis valid : ChunkIndexer.valid_chunking chunk_size overlap.

Lemma split_from_lookup (fuel : nat) :
  forall (text : list A) (k : nat) (c : list A),
    length text <= fuel ->
    ChunkIndexer.split_from chunk_size overlap fuel text !! k = Some c ->
    c = take chunk_size (drop (k * (chunk_size - overlap)) text) /\ c <> [] /\
    forall c', ChunkIndexer.split_from chunk_size overlap fuel text !! S k = Some c' ->
               chunk_size < length (drop (k * (chunk_size - overlap)) text).
Proof.
  unfold ChunkIndexer.valid_chunking in valid.
  induction fuel as [|fuel IH]; intros text k c Hlen; [discriminate|].
  cbn [ChunkIndexer.split_from]. destruct text as [|a text]; [discriminate|].
  destruct (Nat.leb_spec (length (a :: text)) chunk_size) as [Hle|Hgt].
  - destruct k as [|k]; [|discriminate]. intros [= Hc]. subst c.
    cbn [Nat.mul]. rewrite drop_0, take_ge by exact Hle.
    split; [reflexivity|]. split; discriminate.
  - destruct k as [|k].
    + intros [= Hc]. subst c. cbn [Nat.mul]. rewrite drop_0.
      split; [reflexivity|]. split; [|intros c' _; exact Hgt].
      intros H. apply (f_equal length) in H.
      rewrite length_take in H. cbn [length] in *. lia.
    + rewrite !lookup_cons_ne_0 by discriminate. cbn [Nat.pred]. intros Hk.
      destruct (IH (drop (chunk_size - overlap) (a :: text)) k c) as (Hc & Hne & Hnext);
        [rewrite length_drop; cbn [length] in *; lia | exact Hk |].
      rewrite drop_drop in Hc, Hnext.
      replace (S k * (chunk_size - overlap))
        with (chunk_size - overlap + k * (chunk_size - overlap)) by lia.
      split; [exact Hc|]. split; assumption.
Qed.

Lemma split_from_cover (fuel : nat) :
  forall (text : list A) (j : nat),
    length text <= fuel -> j < length text ->
    exists k c, ChunkIndexer.split_from chunk_size overlap fuel text !! k = Some c /\
                k * (chunk_size - overlap) <= j < k * (chunk_size - overlap) + length c.
Proof.
  unfold ChunkIndexer.valid_chunking in valid.
  induction fuel as [|fuel IH]; intros text j Hlen Hj; [lia|].
  cbn [ChunkIndexer.split_from]. destruct text as [|a text]; [cbn in Hj; lia|].
  destruct (Nat.leb_spec (length (a :: text)) chunk_size) as [Hle|Hgt].
  - exists 0, (a :: text). split; [reflexivity|]. lia.
  - destruct (Nat.lt_ge_cases j chunk_size) as [Hin|Hout].
    + exists 0, (take chunk_size (a :: text)). split; [reflexivity|].
      rewrite length_take. lia.
    + destruct (IH (drop (chunk_size - overlap) (a :: text))
                   (j - (chunk_size - overlap))) as (k & c & Hk & Hr).
      * rewrite length_drop. cbn [length] in *. lia.
      * rewrite length_drop. lia.
      * exists (S k), c. split; [exact Hk|]. lia.
Qed.

End ChunkingProperties.

(** C8: for every chunk size and overlap with [1 <= overlap < chunk_size]
    and every text, the chunks are the windows of [chunk_size] units that
    start every [chunk_size - overlap] units; every position of the text
    lies in a chunk; and whenever a chunk has a successor it has full
    length, and its last [overlap] units are the first [overlap] units of
    the successor. *)
Theorem chunks_cover_with_overlap {A : Type} (chunk_size overlap : nat) (text : list A) :
  1 <= overlap < chunk_size ->
  (forall k c,
      ChunkIndexer.split chunk_size overlap text !! k = Some c ->
      c = take chunk_size (drop (k * (chunk_size - overlap)) text) /\ c <> []) /\
  (forall j,
      j < length text ->
      exists k c,
        ChunkIndexer.split chunk_size overlap text !! k = Some c /\
        k * (chunk_size - overlap) <= j < k * (chunk_size - overlap) + length c) /\
  (forall k c c',
      ChunkIndexer.split chunk_size overlap text !! k = Some c ->
      ChunkIndexer.split chunk_size overlap text !! S k = Some c' ->
      length c = chunk_size /\
      take overlap c' = drop (chunk_size - overlap) c /\
      length (drop (chunk_size - overlap) c) = overlap).
Proof.
  intros valid. unfold ChunkIndexer.split. split; [|split].
  - intros k c Hk.
    destruct (split_from_lookup chunk_size overlap valid _ text k c (le_n _) Hk)
      as (Hc & Hne & _).
    now split.
  - intros j Hj.
    exact (split_from_cover chunk_size overlap valid _ text j (le_n _) Hj).
  - intros k c c' Hk Hk'.
    destruct (split_from_lookup chunk_size overlap valid _ text k c (le_n _) Hk)
      as (Hc & _ & Hnext).
    destruct (split_from_lookup chunk_size overlap valid _ text (S k) c' (le_n _) Hk')
      as (Hc' & _ & _).
    specialize (Hnext c' Hk'). subst c c'.
    set (step := chunk_size - overlap) in *.
    set (D := drop (k * step) text) in *.
    assert (drop (S k * step) text = drop step D) as ->.
    { unfold D. rewrite drop_drop. f_equal. lia. }
    assert (length (take chunk_size D) = chunk_size) as Hfull
        by (rewrite length_take; lia).
    split; [exact Hfull|]. split.
    + rewrite take_take, take_drop_commute.
      replace (min overlap chunk_size) with overlap by lia.
      replace (step + overlap) with chunk_size by (unfold step; lia).
      reflexivity.
    + rewrite length_drop, Hfull. unfold step. lia.
Qed.

Lemma chunks_cover_with_overlap_witness :
  let text := [0; 1; 2; 3; 4; 5; 6; 7; 8; 9] in
  (forall k c,
      ChunkIndexer.split 4 1 text !! k = Some c ->
      c = take 4 (drop (k * (4 - 1)) text) /\ c <> []) /\
  (forall j,
      j < length text ->
      exists k c,
        ChunkIndexer.split 4 1 text !! k = Some c /\
        k * (4 - 1) <= j < k * (4 - 1) + length c) /\
  (forall k c c',
      ChunkIndexer.split 4 1 text !! k = Some c ->
      ChunkIndexer.split 4 1 text !! S k = Some c' ->
      length c = 4 /\
      take 1 c' = drop (4 - 1) c /\
      length (drop (4 - 1) c) = 1).
Proof.
  cbn zeta. apply (chunks_cover_with_overlap 4 1 [0; 1; 2; 3; 4; 5; 6; 7; 8; 9]).
  lia.
Defined.

Example split_example :
  ChunkIndexer.split 4 1 [0; 1; 2; 3; 4; 5; 6; 7; 8; 9] = [[0; 1; 2; 3]; [3; 4; 5; 6]; [6; 7; 8; 9]].
Proof. reflexivity. Qed.

Example split_short_tail :
  ChunkIndexer.split 4 2 [0; 1; 2; 3; 4; 5; 6] = [[0; 1; 2; 3]; [2; 3; 4; 5]; [4; 5; 6]].
Proof. reflexivity. Qed.
